(** * CLiCK-tools: the packing-sheet generator of [src/App.js]

    A shallow embedding of the data-shaping functions of the React component
    [App] ([transposeData], [splitIntoColumnPairs], [createWordDocument]), of
    its three export handlers and of its upload handler, with the properties
    the specification states about them.

    Conventions of the embedding:
    - a JavaScript array is a [list]; reading an index that is out of range,
      or a hole of a sparse row, gives [Undefined];
    - the effects of a handler ([saveAs], [alert], [console.error], the
      [setTimeout] pause) are recorded, in order, in a trace of [event]s;
    - code that may throw lives in the error monad [exc]; [try_catch] is the
      [try { ... } catch (error) { ... }] statement;
    - the libraries docx and JSZip enter through the class [Libraries],
      which says when a call of theirs throws. *)

From Stdlib Require Import ZArith String Ascii List Lia DecimalString.
From stdpp Require Import base list strings gmap.

Local Open Scope string_scope.
Local Open Scope list_scope.
Local Open Scope nat_scope.

(** ** Cell values and JavaScript's coercions *)

(** A cell as [XLSX.utils.sheet_to_json(worksheet, { header: 1 })] yields it.
    [Num n] stands for a number that is a safe integer ([|n| < 2^53], where
    [String(n)] is the decimal numeral of [n]); numbers with a fraction and
    integers beyond that range have no counterpart here. A blank cell of the
    sheet is left out of its row: [Undefined] in a row stands for such a
    hole, which reads as [undefined] and which [map] does not visit. *)
Inductive cell : Type :=
  | Undefined
  | Null
  | Str (s : string)
  | Num (n : Z)
  | Bool (b : bool).

#[global] Instance cell_eq_dec : EqDecision cell.
Proof. solve_decision. Defined.

(** Reading past the end of an array gives [undefined]. *)
#[global] Instance cell_inhabited : Inhabited cell := populate Undefined.

(** A row of a sheet and a sheet: the arrays of arrays the handlers pass on. *)
Abbreviation Row := (list cell) (only parsing).
Abbreviation Grid := (list (list cell)) (only parsing).

(** [String(n)] for a natural number and for an integer. *)
Definition nat_to_String (n : nat) : string :=
  NilZero.string_of_uint (Nat.to_uint n).

Definition Z_to_String (n : Z) : string :=
  NilZero.string_of_int (Z.to_int n).

(** [String(v)], also the conversion of [`${v}`] and of [' ' + v]. *)
Definition to_String (v : cell) : string :=
  match v with
  | Undefined => "undefined"
  | Null => "null"
  | Str s => s
  | Num n => Z_to_String n
  | Bool true => "true"
  | Bool false => "false"
  end.

(** The truth value of [v] in a condition: [v ? a : b], [v || b]. *)
Definition truthy (v : cell) : bool :=
  match v with
  | Undefined | Null => false
  | Str s => negb (String.eqb s "")
  | Num n => negb (n =? 0)%Z
  | Bool b => b
  end.

(** A cell without content: the data model has strings, numbers and
    empty or absent cells. *)
Definition is_empty_cell (v : cell) : bool :=
  match v with
  | Undefined | Null => true
  | Str s => String.eqb s ""
  | _ => false
  end.

(** [a || b] *)
Definition js_or (a b : cell) : cell := if truthy a then a else b.

(** [v !== undefined ? v : ''] *)
Definition or_empty (v : cell) : cell :=
  match v with
  | Undefined => Str ""
  | _ => v
  end.

(** ** Loops *)

(** [for (let i = lo; i < hi; i++) s = body i s], started in state [s]. *)
Fixpoint for_from {St : Type} (fuel i : nat) (body : nat → St → St) (s : St) : St :=
  match fuel with
  | O => s
  | S fuel' => for_from fuel' (S i) body (body i s)
  end.

Definition for_loop {St : Type} (lo hi : nat) (body : nat → St → St) (s : St) : St :=
  for_from (hi - lo) lo body s.

(** [Math.max(...lengths)]. On no argument at all JavaScript answers
    [-Infinity]; both callers return before that when [data.length === 0],
    so the value on [[]] is never observed. *)
Definition Math_max (lengths : list nat) : nat := foldr Nat.max 0 lengths.

(** ** transposeData (App.js, lines 111-129) *)

Definition transposeData (data : Grid) : Grid :=
  if (length data =? 0)%nat then data
  else
    let maxCols := Math_max (length <$> data) in
    for_loop 0 maxCols (fun col transposed =>
      let newRow :=
        for_loop 0 (length data) (fun row newRow =>
          newRow ++ [or_empty ((data !!! row) !!! col)]) [] in
      transposed ++ [newRow]) [].

(** ** splitIntoColumnPairs (App.js, lines 137-155) *)

Definition splitIntoColumnPairs (data : Grid) : list Grid :=
  if (length data =? 0)%nat then [data]
  else
    let maxCols := Math_max (length <$> data) in
    if (maxCols <=? 1)%nat then [data]
    else
      for_loop 1 maxCols (fun col pairs =>
        let pair := (fun row : Row => [or_empty (row !!! 0%nat); or_empty (row !!! col)]) <$> data in
        pairs ++ [pair]) [].

(** Modelled from the spec: the TableNormalizer of section 4.1, which the
    source does not have as a function of its own ([transposeData] and
    [splitIntoColumnPairs] fill the missing cells while they read). Every row
    is brought to the maximum row length, absent and undefined cells become
    the empty string, and a grid of zero rows is returned as it is. *)
Definition normalize (g : Grid) : Grid :=
  if (length g =? 0)%nat then g
  else
    let maxCols := Math_max (length <$> g) in
    (fun row : Row => (fun c => or_empty (row !!! c)) <$> seq 0 maxCols) <$> g.

(** A grid is rectangular when all its rows have one length. *)
Definition rectangular (g : Grid) : Prop :=
  ∀ r1 r2 : Row, r1 ∈ g → r2 ∈ g → length r1 = length r2.

(** ** The document built by createWordDocument (App.js, lines 164-223) *)

(** A [TextRun] of docx; [bold] is [false] where the source does not set it. *)
Record TextRun : Type := mkTextRun {
  text : string;
  bold : bool;
  size : nat
}.

(** The one section of the [Document]: the title paragraph (a single run and
    the space after it) and the table (rows of cells, each cell one paragraph
    of one run; width in percent). A row of the table has [None] where [map]
    left a hole of the sheet's row. The blob [Packer.toBlob] returns is
    identified with the document it encodes. *)
Record Document : Type := mkDocument {
  title : TextRun;
  spacing_after : nat;
  table_rows : list (list (option TextRun));
  table_width_pct : nat
}.

(** An element of the [files] state (App.js, lines 45-49). *)
Record FileData : Type := mkFileData {
  name : string;
  data : Grid;
  originalName : string
}.

#[global] Instance FileData_inhabited : Inhabited FileData :=
  populate {| name := ""; data := []; originalName := "" |}.

(** [{ ...file, data: d }] *)
Definition with_data (file : FileData) (d : Grid) : FileData :=
  {| name := name file; data := d; originalName := originalName file |}.

(** [cell !== null && cell !== undefined ? String(cell) : ''] *)
Definition cell_text (c : cell) : string :=
  match c with
  | Null | Undefined => ""
  | _ => to_String c
  end.

(** A parameter declared [p = d]: the default stands in when the argument
    is left out or is [undefined]. *)
Definition default_param (arg d : cell) : cell :=
  match arg with
  | Undefined => d
  | _ => arg
  end.

(** [row.map(f)] on a row of a sheet: [f] is not called on a hole, and the
    hole stays. *)
Definition row_map {B : Type} (f : cell → B) (row : Row) : list (option B) :=
  (fun c => match c with
            | Undefined => None
            | _ => Some (f c)
            end) <$> row.

(** The document of lines 166-219. The last line of the source function,
    [Packer.toBlob], is [Packer_toBlob] below: it is applied where a handler
    awaits the result. *)
Definition createWordDocument (fileData : FileData) (transpose : bool) (suffix : cell)
  : Document :=
  let suffix := default_param suffix (Str "") in
  let dataToExport := if transpose then transposeData (data fileData) else data fileData in
  let tableRows :=
    (fun row : Row =>
       row_map (fun cell => {| text := cell_text cell; bold := false; size := 20 |}) row)
    <$> dataToExport in
  {| title := {| text := "Packing Sheet"
                         +:+ (if truthy suffix then " " +:+ to_String suffix else "");
                 bold := true;
                 size := 32 |};
     spacing_after := 200;
     table_rows := tableRows;
     table_width_pct := 100 |}.

(** ** State of the component and observable effects *)

(** The [useState] cells of [App] (App.js, lines 11-16). *)
Record AppState : Type := mkAppState {
  files : list FileData;
  selectedFileIndex : nat;
  isDragging : bool;
  transpose : bool;
  splitColumns : bool;
  showPreview : bool
}.

(** What a handler does to the outside, in the order it does it. A JSZip
    archive is taken as the finite map from the path of a document entry to
    its content: [folder.file(path, blob)] on a path already present
    replaces the entry. The directory entries JSZip keeps beside them (that
    of [converted_files/], and that of a folder for a name with a slash)
    are not part of the map. *)
Inductive event : Type :=
  | saveAs (blob : Document) (fileName : string)
  | saveAs_zip (zipBlob : gmap string Document) (fileName : string)
  | setTimeout (ms : nat)
  | alert (msg : string)
  | arrayBuffer (fileName : string)
  | console_error (msg : string) (error : string).

(** [row?.[j]] *)
Definition opt_index (r : option Row) (j : nat) : cell :=
  match r with
  | None => Undefined
  | Some r => r !!! j
  end.

(** [columnPairs[i][0]?.[1] || `column${i + 2}`] (App.js, lines 249, 295, 352) *)
Definition familyName (columnPairs : list Grid) (i : nat) : cell :=
  js_or (opt_index ((columnPairs !!! i) !! 0) 1) (Str ("column" +:+ nat_to_String (i + 2))).

(** ** Exceptions *)

(** A computation that returns a value or throws. *)
Inductive exc (A : Type) : Type :=
  | Return (a : A)
  | Throw (error : string).
Arguments Return {A} a.
Arguments Throw {A} error.

Definition exc_bind {A B : Type} (m : exc A) (k : A → exc B) : exc B :=
  match m with
  | Return a => k a
  | Throw e => Throw e
  end.

Notation "x ←! m ; k" := (exc_bind m (fun x => k))
  (at level 20, m at level 100, k at level 200, right associativity, only parsing).

(** [try { body } catch (error) { handler }] *)
Definition try_catch {A : Type} (body : exc A) (handler : string → exc A) : exc A :=
  match body with
  | Return a => Return a
  | Throw e => handler e
  end.

(** The [for] loop whose body may throw: an exception leaves the loop. *)
Fixpoint for_fromM {St : Type} (fuel i : nat) (body : nat → St → exc St) (s : St) : exc St :=
  match fuel with
  | O => Return s
  | S fuel' => s' ←! body i s; for_fromM fuel' (S i) body s'
  end.

Definition for_loopM {St : Type} (lo hi : nat) (body : nat → St → exc St) (s : St) : exc St :=
  for_fromM (hi - lo) lo body s.

(** ** The libraries behind the exports *)

(** What the exports need to know of docx and JSZip: when a call throws.
    [docx_error doc] is the error thrown while [doc] is built and encoded
    (the constructors of lines 169-219 and [Packer.toBlob], line 222), if
    there is one; [zip_error zip] is the error [zip.generateAsync] throws
    (line 366), if there is one. Within one run of a handler the outcome of
    a call depends on the document, or on the archive, only. [saveAs],
    [alert], [zip.folder] and [folder.file] are taken not to throw. *)
Class Libraries : Type := {
  docx_error : Document → option string;
  zip_error : gmap string Document → option string
}.

(** [await createWordDocument(...)] on the document [doc]: its blob, or the
    error thrown. *)
Definition Packer_toBlob `{Libraries} (doc : Document) : exc Document :=
  match docx_error doc with
  | None => Return doc
  | Some error => Throw error
  end.

(** The [for] loop of a [try] block, on a state: the state when the loop
    ends or a round throws, and the error thrown, if any. *)
Fixpoint for_from_try {St : Type} (fuel i : nat) (body : nat → St → St * option string)
    (s : St) : St * option string :=
  match fuel with
  | O => (s, None)
  | S fuel' =>
    match body i s with
    | (s', None) => for_from_try fuel' (S i) body s'
    | (s', Some error) => (s', Some error)
    end
  end.

Definition for_loop_try {St : Type} (lo hi : nat) (body : nat → St → St * option string)
    (s : St) : St * option string :=
  for_from_try (hi - lo) lo body s.

(** ** downloadWordFile (App.js, lines 229-269) *)
Definition downloadWordFile `{Libraries} (st : AppState) : list event :=
  if (length (files st) =? 0)%nat then [alert "Please upload an Excel file first!"]
  else
    match files st !! selectedFileIndex st with
    | None => [alert "No file selected!"]
    | Some currentFile =>
      let dataToExport :=
        if transpose st then transposeData (data currentFile) else data currentFile in
      let '(trace, thrown) :=
        if splitColumns st then
          let columnPairs := splitIntoColumnPairs dataToExport in
          let '(trace, thrown) :=
            for_loop_try 0 (length columnPairs) (fun i trace =>
              let familyName := familyName columnPairs i in
              match Packer_toBlob
                      (createWordDocument (with_data currentFile (columnPairs !!! i))
                         false familyName) with
              | Throw error => (trace, Some error)
              | Return blob =>
                let trace :=
                  trace ++ [saveAs blob (name currentFile +:+ "_" +:+ to_String familyName
                                         +:+ ".docx")] in
                (if (i <? length columnPairs - 1)%nat then trace ++ [setTimeout 300]
                 else trace,
                 None)
              end) [] in
          match thrown with
          | None =>
            (trace ++ [alert ("Successfully downloaded "
                              +:+ nat_to_String (length columnPairs)
                              +:+ " Word documents!")],
             None)
          | Some error => (trace, Some error)
          end
        else
          match Packer_toBlob (createWordDocument currentFile (transpose st) Undefined) with
          | Throw error => ([], Some error)
          | Return blob =>
            ([saveAs blob (to_String (js_or (Str (name currentFile)) (Str "converted"))
                           +:+ ".docx")],
             None)
          end in
      match thrown with
      | None => trace
      | Some error =>
        trace ++ [console_error "Error creating Word document:" error;
                  alert "Error creating Word document. Please try again."]
      end
    end.

(** [`Word document${totalDocs > 1 ? 's' : ''}!`] *)
Definition documents_msg (totalDocs : nat) : string :=
  nat_to_String totalDocs +:+ " Word document" +:+ (if (1 <? totalDocs)%nat then "s" else "") +:+ "!".

(** ** downloadAllWordFiles (App.js, lines 276-321) *)
Definition downloadAllWordFiles `{Libraries} (st : AppState) : list event :=
  if (length (files st) =? 0)%nat then [alert "Please upload Excel files first!"]
  else
    let '((totalDocs, trace), thrown) :=
      for_loop_try 0 (length (files st)) (fun i '(totalDocs, trace) =>
        let file := files st !!! i in
        let dataToExport := if transpose st then transposeData (data file) else data file in
        if splitColumns st then
          let columnPairs := splitIntoColumnPairs dataToExport in
          for_loop_try 0 (length columnPairs) (fun j '(totalDocs, trace) =>
            let familyName := familyName columnPairs j in
            match Packer_toBlob
                    (createWordDocument (with_data file (columnPairs !!! j))
                       false familyName) with
            | Throw error => ((totalDocs, trace), Some error)
            | Return blob =>
              let trace :=
                trace ++ [saveAs blob (name file +:+ "_" +:+ to_String familyName
                                       +:+ ".docx")] in
              let totalDocs := totalDocs + 1 in
              ((totalDocs, trace ++ [setTimeout 300]), None)
            end) (totalDocs, trace)
        else
          match Packer_toBlob (createWordDocument file (transpose st) Undefined) with
          | Throw error => ((totalDocs, trace), Some error)
          | Return blob =>
            let trace :=
              trace ++ [saveAs blob
                          (to_String (js_or (Str (name file))
                                            (Str ("converted_" +:+ nat_to_String (i + 1))))
                           +:+ ".docx")] in
            let totalDocs := totalDocs + 1 in
            if (i <? length (files st) - 1)%nat
            then ((totalDocs, trace ++ [setTimeout 300]), None)
            else ((totalDocs, trace), None)
          end) (0, []) in
    match thrown with
    | None => trace ++ [alert ("Successfully downloaded " +:+ documents_msg totalDocs)]
    | Some error =>
      trace ++ [console_error "Error creating Word documents:" error;
                alert "Error creating Word documents. Please try again."]
    end.

(** ** downloadZipFile (App.js, lines 328-374) *)

(** [zip.folder('converted_files')] then [folder.file(fileName, blob)] *)
Definition folder_file (zip : gmap string Document) (fileName : string) (blob : Document)
  : gmap string Document :=
  <["converted_files/" +:+ fileName := blob]> zip.

(** The loop of lines 343-363, on the archive and the counter. *)
Definition zip_entries `{Libraries} (st : AppState)
  : (gmap string Document * nat) * option string :=
  for_loop_try 0 (length (files st)) (fun i '(zip, totalDocs) =>
    let file := files st !!! i in
    let dataToExport := if transpose st then transposeData (data file) else data file in
    if splitColumns st then
      let columnPairs := splitIntoColumnPairs dataToExport in
      for_loop_try 0 (length columnPairs) (fun j '(zip, totalDocs) =>
        let familyName := familyName columnPairs j in
        match Packer_toBlob
                (createWordDocument (with_data file (columnPairs !!! j))
                   false familyName) with
        | Throw error => ((zip, totalDocs), Some error)
        | Return blob =>
          ((folder_file zip (name file +:+ "_" +:+ to_String familyName +:+ ".docx") blob,
            totalDocs + 1),
           None)
        end) (zip, totalDocs)
    else
      match Packer_toBlob (createWordDocument file (transpose st) Undefined) with
      | Throw error => ((zip, totalDocs), Some error)
      | Return blob =>
        ((folder_file zip
            (to_String (js_or (Str (name file))
                              (Str ("converted_" +:+ nat_to_String (i + 1))))
             +:+ ".docx") blob,
          totalDocs + 1),
         None)
      end) (∅, 0).

Definition downloadZipFile `{Libraries} (st : AppState) : list event :=
  if (length (files st) =? 0)%nat then [alert "Please upload Excel files first!"]
  else
    let '((zip, totalDocs), thrown) := zip_entries st in
    let thrown :=
      match thrown with
      | None => zip_error zip
      | Some error => Some error
      end in
    match thrown with
    | None =>
      [saveAs_zip zip "converted_files.zip";
       alert ("Successfully created zip file with " +:+ documents_msg totalDocs)]
    | Some error =>
      [console_error "Error creating zip file:" error;
       alert "Error creating zip file. Please try again."]
    end.

(** ** Regular expressions of the upload handler *)

(** Case folding of a pattern with the [i] flag, on one character: a
    lower-case ASCII letter becomes the upper-case one; every other byte,
    those of a character outside ASCII too, is left as it is (such a
    character never matches an ASCII one). *)
Definition canonicalize (c : ascii) : ascii :=
  let n := nat_of_ascii c in
  if ((97 <=? n) && (n <=? 122))%nat then ascii_of_nat (n - 32) else c.

(** The rest of the input is exactly [pat], up to case: [pat$] with [i]. *)
Fixpoint match_end_i (s pat : string) : bool :=
  match s, pat with
  | EmptyString, EmptyString => true
  | String c s', String p pat' =>
    Ascii.eqb (canonicalize c) (canonicalize p) && match_end_i s' pat'
  | _, _ => false
  end.

(** [name.match(/\.(xlsx|xls)$/i)] as a condition: the match is tried at
    every position, from the left. *)
Fixpoint matches_excel (s : string) : bool :=
  match s with
  | EmptyString => false
  | String c s' =>
    (Ascii.eqb c "." && (match_end_i s' "xlsx" || match_end_i s' "xls"))
    || matches_excel s'
  end.

(** [[^/.]] *)
Definition not_slash_dot (c : ascii) : bool :=
  negb (Ascii.eqb c "/") && negb (Ascii.eqb c ".").

(** [[^/.]+$]: the rest of the input is not empty and all of it is in the class. *)
Fixpoint class_plus_end (s : string) : bool :=
  match s with
  | EmptyString => false
  | String c EmptyString => not_slash_dot c
  | String c s' => not_slash_dot c && class_plus_end s'
  end.

(** [name.replace(/\.[^/.]+$/, '')]: the leftmost match, which runs to the
    end of the name, is cut off. *)
Fixpoint remove_extension (s : string) : string :=
  match s with
  | EmptyString => EmptyString
  | String c s' =>
    if Ascii.eqb c "." && class_plus_end s' then EmptyString
    else String c (remove_extension s')
  end.

(** ** handleFilesUpload (App.js, lines 23-61) *)

(** A [File] of the browser: its name and its bytes. *)
Record File : Type := mkFile {
  file_name : string;
  file_bytes : list Byte.byte
}.

#[global] Instance File_inhabited : Inhabited File :=
  populate {| file_name := ""; file_bytes := [] |}.

Section Upload.

(** Lines 35-42: the bytes of the file are read ([file.arrayBuffer()]) and
    handed to the xlsx library ([XLSX.read], the first sheet of the
    workbook, [sheet_to_json]). The rows of the sheet are returned, or an
    exception is thrown. *)
Variable decode : File → exc Grid.

(** The loop of lines 29-54, on the pair of [newFiles] and the trace. *)
Definition upload_body (fileList : list File) (i : nat)
    (s : list FileData * list event) : exc (list FileData * list event) :=
  let '(newFiles, trace) := s in
  let file := fileList !!! i in
  if matches_excel (file_name file) then
    let trace := trace ++ [arrayBuffer (file_name file)] in
    try_catch
      (jsonData ←! decode file;
       Return (newFiles ++ [{| name := remove_extension (file_name file);
                               data := jsonData;
                               originalName := file_name file |}],
               trace))
      (fun error =>
         Return (newFiles,
                 trace ++ [console_error ("Error reading file " +:+ file_name file +:+ ":")
                                         error]))
  else Return (newFiles, trace).

(** The handler, started in state [st] and run to its end with no other
    handler in between: the new state and the trace, or the exception that
    leaves it. *)
Definition handleFilesUpload (st : AppState) (fileList : list File)
  : exc (AppState * list event) :=
  if (length fileList =? 0)%nat then Return (st, [])
  else
    r ←! for_loopM 0 (length fileList) (upload_body fileList) ([], []);
    let '(newFiles, trace) := r in
    if (0 <? length newFiles)%nat then
      Return ({| files := files st ++ newFiles;
                 selectedFileIndex := length (files st);
                 isDragging := isDragging st;
                 transpose := transpose st;
                 splitColumns := splitColumns st;
                 showPreview := showPreview st |},
              trace)
    else Return (st, trace).

(** The handler among other handlers. The loop awaits, and other handlers
    may run meanwhile: [started] is the state of the render that called the
    handler, whose [files] line 59 reads, and [st] is the state when the
    loop is over, to which the update of line 58 is applied. *)
Definition handleFilesUpload_async (started st : AppState) (fileList : list File)
  : exc (AppState * list event) :=
  if (length fileList =? 0)%nat then Return (st, [])
  else
    r ←! for_loopM 0 (length fileList) (upload_body fileList) ([], []);
    let '(newFiles, trace) := r in
    if (0 <? length newFiles)%nat then
      Return ({| files := files st ++ newFiles;
                 selectedFileIndex := length (files started);
                 isDragging := isDragging st;
                 transpose := transpose st;
                 splitColumns := splitColumns st;
                 showPreview := showPreview st |},
              trace)
    else Return (st, trace).

(** The table a decoded file becomes (App.js, lines 45-49). *)
Definition table_of (file : File) (jsonData : Grid) : FileData :=
  {| name := remove_extension (file_name file);
     data := jsonData;
     originalName := file_name file |}.

(** What one file adds to [newFiles], and what it adds to the trace. *)
Definition uploaded (file : File) : list FileData :=
  if matches_excel (file_name file) then
    match decode file with
    | Return jsonData => [table_of file jsonData]
    | Throw _ => []
    end
  else [].

Definition upload_events (file : File) : list event :=
  if matches_excel (file_name file) then
    arrayBuffer (file_name file)
    :: match decode file with
       | Return _ => []
       | Throw error =>
         [console_error ("Error reading file " +:+ file_name file +:+ ":") error]
       end
  else [].

(** The state after [newFiles] were added (App.js, lines 58-59). *)
Definition add_files (st : AppState) (newFiles : list FileData) : AppState :=
  {| files := files st ++ newFiles;
     selectedFileIndex := length (files st);
     isDragging := isDragging st;
     transpose := transpose st;
     splitColumns := splitColumns st;
     showPreview := showPreview st |}.

End Upload.

(** ** Vocabulary of the properties *)

(** The cell the loops read at row [r] and column [c]: [''] where the
    source grid has none. *)
Definition cell_or_empty (data : Grid) (r c : nat) : cell :=
  or_empty ((data !!! r) !!! c).

(** The pair of the label column and column [col]. *)
Definition column_pair (data : Grid) (col : nat) : Grid :=
  (fun row : Row => [or_empty (row !!! 0); or_empty (row !!! col)]) <$> data.

(** The grid of [n] rows and [m] columns whose cell at [r], [c] is [f r c]. *)
Definition tabulate (n m : nat) (f : nat → nat → cell) : Grid :=
  (fun r => f r <$> seq 0 m) <$> seq 0 n.

(** The title is bold and reads [Packing Sheet], alone or followed by a
    space and a text that is not empty. *)
Definition packing_title (doc : Document) : Prop :=
  bold (title doc) = true
  ∧ (text (title doc) = "Packing Sheet"
     ∨ ∃ s, s ≠ "" ∧ text (title doc) = "Packing Sheet " +:+ s).

(** Every document an event hands over has such a title. *)
Definition titles_ok (e : event) : Prop :=
  match e with
  | saveAs blob _ => packing_title blob
  | saveAs_zip zipBlob _ => map_Forall (fun _ blob => packing_title blob) zipBlob
  | _ => True
  end.

(** The artifact of pair [j] of a file: its file name and its document. *)
Definition split_artifact (file : FileData) (columnPairs : list Grid) (j : nat)
  : string * Document :=
  (name file +:+ "_" +:+ to_String (familyName columnPairs j) +:+ ".docx",
   createWordDocument (with_data file (columnPairs !!! j)) false (familyName columnPairs j)).

(** The artifact of a file that is not split; [fallback] names it when the
    file has no name. *)
Definition whole_artifact (transpose : bool) (file : FileData) (fallback : string)
  : string * Document :=
  (to_String (js_or (Str (name file)) (Str fallback)) +:+ ".docx",
   createWordDocument file transpose Undefined).

(** The grid of a file as the options shape it, and the pairs it splits into. *)
Definition dataToExport (st : AppState) (file : FileData) : Grid :=
  if transpose st then transposeData (data file) else data file.

Definition columnPairs_of (st : AppState) (file : FileData) : list Grid :=
  splitIntoColumnPairs (dataToExport st file).

(** The artifacts of the file at index [i] of the working set, in order. *)
Definition file_artifacts (st : AppState) (i : nat) : list (string * Document) :=
  let file := files st !!! i in
  if splitColumns st then
    split_artifact file (columnPairs_of st file) <$> seq 0 (length (columnPairs_of st file))
  else [whole_artifact (transpose st) file ("converted_" +:+ nat_to_String (i + 1))].

(** The artifacts of the whole working set, in order. *)
Definition artifacts (st : AppState) : list (string * Document) :=
  concat (file_artifacts st <$> seq 0 (length (files st))).

Definition save_event (a : string * Document) : event := saveAs a.2 a.1.

(** A round of an export: an artifact and whether a pause of 300 ms follows
    its delivery. *)
Definition round_events (r : (string * Document) * bool) : list event :=
  save_event r.1 :: (if r.2 then [setTimeout 300] else []).

Definition rounds_events (rounds : list ((string * Document) * bool)) : list event :=
  concat (round_events <$> rounds).

(** The rounds that go through before a document fails to encode, and the
    error of that document, if there is one. *)
Fixpoint render `{Libraries} (rounds : list ((string * Document) * bool))
  : list ((string * Document) * bool) * option string :=
  match rounds with
  | [] => ([], None)
  | r :: rest =>
    match docx_error r.1.2 with
    | Some error => ([], Some error)
    | None => let '(done, thrown) := render rest in (r :: done, thrown)
    end
  end.

(** The rounds of [downloadAllWordFiles] for the file at index [i], and all
    of them. *)
Definition file_rounds (st : AppState) (i : nat) : list ((string * Document) * bool) :=
  let file := files st !!! i in
  if splitColumns st then
    (fun j => (split_artifact file (columnPairs_of st file) j, true))
    <$> seq 0 (length (columnPairs_of st file))
  else
    [(whole_artifact (transpose st) file ("converted_" +:+ nat_to_String (i + 1)),
      (i <? length (files st) - 1)%nat)].

Definition all_rounds (st : AppState) : list ((string * Document) * bool) :=
  concat (file_rounds st <$> seq 0 (length (files st))).

(** The rounds of [downloadWordFile] for the selected file. *)
Definition word_rounds (st : AppState) (currentFile : FileData)
  : list ((string * Document) * bool) :=
  if splitColumns st then
    (fun i => (split_artifact currentFile (columnPairs_of st currentFile) i,
               (i <? length (columnPairs_of st currentFile) - 1)%nat))
    <$> seq 0 (length (columnPairs_of st currentFile))
  else [(whole_artifact (transpose st) currentFile "converted", false)].

(** The rounds of [downloadZipFile]: no pause. *)
Definition zip_rounds (st : AppState) : list ((string * Document) * bool) :=
  (fun a => (a, false)) <$> artifacts st.

(** The archive after the artifacts [l] were added to [zip], one by one. *)
Definition add_artifacts (zip : gmap string Document) (l : list (string * Document))
  : gmap string Document :=
  foldl (fun zip a => folder_file zip a.1 a.2) zip l.

(** What delivered rounds add to the state of each export: to the trace, to
    the counter and the trace, to the archive and the counter. *)
Definition add_trace (trace : list event) (rounds : list ((string * Document) * bool))
  : list event :=
  trace ++ rounds_events rounds.

Definition add_count (s : nat * list event) (rounds : list ((string * Document) * bool))
  : nat * list event :=
  (s.1 + length rounds, s.2 ++ rounds_events rounds).

Definition add_zip (s : gmap string Document * nat)
    (rounds : list ((string * Document) * bool)) : gmap string Document * nat :=
  (add_artifacts s.1 (rounds.*1), s.2 + length rounds).

(** What a [catch] of an export does with the error. *)
Definition caught (what : string) (error : string) : list event :=
  [console_error ("Error creating " +:+ what +:+ ":") error;
   alert ("Error creating " +:+ what +:+ ". Please try again.")].

(** A trace without a logged error. *)
Definition no_error (trace : list event) : Prop :=
  ∀ msg error, console_error msg error ∉ trace.

(** Whether a trace logs an error. *)
Definition logs_error (trace : list event) : bool :=
  existsb (fun e => match e with
                    | console_error _ _ => true
                    | _ => false
                    end) trace.

(** Libraries that never throw, and a docx that refuses a table without
    rows while JSZip never throws. *)
Definition reliable : Libraries :=
  {| docx_error := fun _ => None; zip_error := fun _ => None |}.

Definition docx_needs_rows : Libraries :=
  {| docx_error := fun doc => match table_rows doc with
                              | [] => Some "Invalid array length"
                              | _ => None
                              end;
     zip_error := fun _ => None |}.


(** Two tables of one name: from [a.xlsx] and from [a.xls]. *)
Definition same_name_tables : AppState :=
  {| files := [ {| name := "a"; data := [[Str "x"]]; originalName := "a.xlsx" |};
                {| name := "a"; data := [[Str "y"]]; originalName := "a.xls" |} ];
     selectedFileIndex := 0;
     isDragging := false;
     transpose := false;
     splitColumns := false;
     showPreview := true |}.

(** Three tables of distinct names, the last one without a name. *)
Definition three_tables : AppState :=
  {| files := [ {| name := "north"; data := [[Str "Item"; Num 2]];
                   originalName := "north.xlsx" |};
                {| name := "south"; data := [[Str "Item"; Num 5]; [Str "Box"]];
                   originalName := "south.xls" |};
                {| name := ""; data := [[Str "Item"; Num 1]]; originalName := ".xlsx" |} ];
     selectedFileIndex := 0;
     isDragging := false;
     transpose := true;
     splitColumns := false;
     showPreview := true |}.

(** The pause stands between two saves only: each [setTimeout] comes right
    after a [saveAs] and right before the next one. [after_save] tells
    whether the event before the trace was a [saveAs]. *)
Fixpoint delays_between_saves (after_save : bool) (trace : list event) : bool :=
  match trace with
  | [] => true
  | setTimeout _ :: rest =>
    after_save
    && match rest with saveAs _ _ :: _ => true | _ => false end
    && delays_between_saves false rest
  | saveAs _ _ :: rest => delays_between_saves true rest
  | _ :: rest => delays_between_saves false rest
  end.

(** Two tables of two columns, exported with splitting on. *)
Definition two_tables_split : AppState :=
  {| files := [ {| name := "north";
                   data := [[Str "Name"; Str "Alice"]; [Str "Age"; Num 30]];
                   originalName := "north.xlsx" |};
                {| name := "south";
                   data := [[Str "Name"; Str "Bob"]; [Str "Age"; Num 25]];
                   originalName := "south.xlsx" |} ];
     selectedFileIndex := 0;
     isDragging := false;
     transpose := false;
     splitColumns := true;
     showPreview := true |}.

(** Two tables, the second one without rows. *)
Definition empty_second_table : AppState :=
  {| files := [ {| name := "north"; data := [[Str "Item"; Num 2]];
                   originalName := "north.xlsx" |};
                {| name := "south"; data := []; originalName := "south.xlsx" |} ];
     selectedFileIndex := 1;
     isDragging := false;
     transpose := false;
     splitColumns := false;
     showPreview := true |}.

(** One table of two columns, exported with splitting on. *)
Definition one_table_split : AppState :=
  {| files := [ {| name := "sheet";
                   data := [[Str "Name"; Str "Alice"]; [Str "Age"; Num 30]];
                   originalName := "sheet.xlsx" |} ];
     selectedFileIndex := 0;
     isDragging := false;
     transpose := false;
     splitColumns := true;
     showPreview := true |}.

(** A name folded to upper case, character by character. *)
Fixpoint fold_case (s : string) : string :=
  match s with
  | EmptyString => EmptyString
  | String c s' => String (canonicalize c) (fold_case s')
  end.

(** [s] ends in [suffix], the case of letters apart. *)
Definition ends_with_i (s suffix : string) : Prop :=
  ∃ front back, s = front +:+ back ∧ fold_case back = fold_case suffix.

(** [file] passes the name filter and decodes into [table]. *)
Definition decodes_into (decode : File → exc Grid) (file : File) (table : FileData) : Prop :=
  matches_excel (file_name file) = true
  ∧ ∃ jsonData, decode file = Return jsonData ∧ table = table_of file jsonData.

(** A decoder for the examples: a file without bytes cannot be read, any
    other file holds one sheet of one row. *)
Definition sample_decode (file : File) : exc Grid :=
  match file_bytes file with
  | [] => Throw "Unsupported file"
  | _ => Return [[Str "Name"; Str (file_name file)]]
  end.

Definition sample_state : AppState :=
  {| files := [];
     selectedFileIndex := 0;
     isDragging := false;
     transpose := true;
     splitColumns := false;
     showPreview := true |}.

Definition sample_batch : list File :=
  [ {| file_name := "north.xlsx"; file_bytes := [Byte.x50; Byte.x4b] |};
    {| file_name := "broken.XLS"; file_bytes := [] |};
    {| file_name := "south.xls"; file_bytes := [Byte.xd0; Byte.xcf] |} ].

(** The texts of the cells of the table of a document, row by row (a hole
    of a row has none). *)
Definition table_texts (doc : Document) : list (list string) :=
  (fun cells : list (option TextRun) => omap (fmap text) cells) <$> table_rows doc.

(** A working set of the one table [people], with the given grid and options. *)
Definition one_table (g : Grid) (transpose splitColumns : bool) : AppState :=
  {| files := [ {| name := "people"; data := g; originalName := "people.xlsx" |} ];
     selectedFileIndex := 0;
     isDragging := false;
     transpose := transpose;
     splitColumns := splitColumns;
     showPreview := true |}.

(** ** The other handlers of the component *)

(** [setIsDragging(b)] *)
Definition set_isDragging (b : bool) (st : AppState) : AppState :=
  {| files := files st;
     selectedFileIndex := selectedFileIndex st;
     isDragging := b;
     transpose := transpose st;
     splitColumns := splitColumns st;
     showPreview := showPreview st |}.

(** [setSelectedFileIndex(index)], the click on a tab (App.js, line 443). *)
Definition selectFile (st : AppState) (index : nat) : AppState :=
  {| files := files st;
     selectedFileIndex := index;
     isDragging := isDragging st;
     transpose := transpose st;
     splitColumns := splitColumns st;
     showPreview := showPreview st |}.

(** The three check boxes (App.js, lines 477, 488, 499). *)
Definition setTranspose (st : AppState) (checked : bool) : AppState :=
  {| files := files st;
     selectedFileIndex := selectedFileIndex st;
     isDragging := isDragging st;
     transpose := checked;
     splitColumns := splitColumns st;
     showPreview := showPreview st |}.

Definition setSplitColumns (st : AppState) (checked : bool) : AppState :=
  {| files := files st;
     selectedFileIndex := selectedFileIndex st;
     isDragging := isDragging st;
     transpose := transpose st;
     splitColumns := checked;
     showPreview := showPreview st |}.

Definition setShowPreview (st : AppState) (checked : bool) : AppState :=
  {| files := files st;
     selectedFileIndex := selectedFileIndex st;
     isDragging := isDragging st;
     transpose := transpose st;
     splitColumns := splitColumns st;
     showPreview := checked |}.

(** [l.filter((x, i) => p x i)], the elements numbered from [i]. *)
Fixpoint filter_indexed {A : Type} (p : A → nat → bool) (i : nat) (l : list A) : list A :=
  match l with
  | [] => []
  | x :: l' =>
    if p x i then x :: filter_indexed p (S i) l' else filter_indexed p (S i) l'
  end.

(** The click on the cross of the tab at [index] (App.js, lines 449-457).
    [Math.max(0, newFiles.length - 1)] is computed on natural numbers, where
    [0 - 1] is [0]. *)
Definition removeFile (st : AppState) (index : nat) : AppState :=
  let newFiles := filter_indexed (fun _ i => negb (i =? index)%nat) 0 (files st) in
  {| files := newFiles;
     selectedFileIndex :=
       if (length newFiles <=? selectedFileIndex st)%nat
       then Nat.max 0 (length newFiles - 1)
       else selectedFileIndex st;
     isDragging := isDragging st;
     transpose := transpose st;
     splitColumns := splitColumns st;
     showPreview := showPreview st |}.

(** The drag handlers (App.js, lines 74-91). *)
Definition handleDragEnter (st : AppState) : AppState := set_isDragging true st.
Definition handleDragLeave (st : AppState) : AppState := set_isDragging false st.
Definition handleDragOver (st : AppState) : AppState := st.

Section Handlers.

Variable decode : File → exc Grid.

(** handleFileChange and handleFolderChange (App.js, lines 64-71). *)
Definition handleFileChange (st : AppState) (fileList : list File)
  : exc (AppState * list event) :=
  handleFilesUpload decode st fileList.

Definition handleFolderChange (st : AppState) (fileList : list File)
  : exc (AppState * list event) :=
  handleFilesUpload decode st fileList.

(** handleDrop (App.js, lines 94-103). *)
Definition handleDrop (st : AppState) (droppedFiles : list File)
  : exc (AppState * list event) :=
  let st := set_isDragging false st in
  if (0 <? length droppedFiles)%nat then handleFilesUpload decode st droppedFiles
  else Return (st, []).

(** The state a handler of the upload leaves. *)
Definition state_after (r : exc (AppState * list event)) (st : AppState) : AppState :=
  match r with
  | Return (st', _) => st'
  | Throw _ => st
  end.

(** What the user can do to the state. A tab and its cross exist for the
    indices of [files] only. A handler runs to its end before the next one
    starts. *)
Inductive action : Type :=
  | Browse (fileList : list File)
  | BrowseFolder (fileList : list File)
  | DragEnter
  | DragLeave
  | DragOver
  | Drop (droppedFiles : list File)
  | ClickTab (index : nat)
  | ClickRemove (index : nat)
  | CheckTranspose (checked : bool)
  | CheckSplitColumns (checked : bool)
  | CheckShowPreview (checked : bool).

Definition enabled (st : AppState) (a : action) : Prop :=
  match a with
  | ClickTab index | ClickRemove index => index < length (files st)
  | _ => True
  end.

Definition step (st : AppState) (a : action) : AppState :=
  match a with
  | Browse fileList => state_after (handleFileChange st fileList) st
  | BrowseFolder fileList => state_after (handleFolderChange st fileList) st
  | DragEnter => handleDragEnter st
  | DragLeave => handleDragLeave st
  | DragOver => handleDragOver st
  | Drop droppedFiles =>
    state_after (handleDrop st droppedFiles) (set_isDragging false st)
  | ClickTab index => selectFile st index
  | ClickRemove index => removeFile st index
  | CheckTranspose checked => setTranspose st checked
  | CheckSplitColumns checked => setSplitColumns st checked
  | CheckShowPreview checked => setShowPreview st checked
  end.

(** The initial values of the [useState] cells (App.js, lines 11-16). *)
Definition initial_state : AppState :=
  {| files := [];
     selectedFileIndex := 0;
     isDragging := false;
     transpose := true;
     splitColumns := false;
     showPreview := true |}.

(** The states the user can bring the component into, each handler running
    to its end before the next one starts. *)
Inductive reachable : AppState → Prop :=
  | reachable_initial : reachable initial_state
  | reachable_step st a : reachable st → enabled st a → reachable (step st a).

End Handlers.

(** ** The preview (App.js, lines 509-545) *)

(** One page of the preview: its title and the texts of the cells of its
    table (React renders no cell for a hole [map] left). *)
Record PreviewPage : Type := mkPreviewPage {
  page_title : string;
  page_rows : list (list string)
}.

(** [splitColumns && previewData[0]?.[1] ? previewData[0][1] : ''] *)
Definition preview_familyName (splitColumns : bool) (previewData : Grid) : cell :=
  if splitColumns && truthy (opt_index (previewData !! 0) 1)
  then (previewData !!! 0) !!! 1
  else Str "".

Definition preview_page (splitColumns : bool) (previewData : Grid) : PreviewPage :=
  let familyName := preview_familyName splitColumns previewData in
  {| page_title := "Packing Sheet"
                   +:+ (if truthy familyName then " " +:+ to_String familyName else "");
     page_rows := (fun row : Row => omap id (row_map cell_text row)) <$> previewData |}.

(** The heading and the pages of the preview, when it is shown. *)
Definition preview (st : AppState) : option (string * list PreviewPage) :=
  if (0 <? length (files st))%nat then
    match files st !! selectedFileIndex st with
    | Some file =>
      if showPreview st then
        let dataToExport := if transpose st then transposeData (data file) else data file in
        let previews :=
          if splitColumns st then splitIntoColumnPairs dataToExport else [dataToExport] in
        Some ("Document Preview - " +:+ originalName file,
              preview_page (splitColumns st) <$> previews)
      else None
    | None => None
    end
  else None.

(** The files a trace saves, in order. *)
Definition saved_files (trace : list event) : list (string * Document) :=
  omap (fun e => match e with
                 | saveAs blob fileName => Some (fileName, blob)
                 | _ => None
                 end) trace.

(** A file name of a Word document: a base that is not empty, then [.docx]. *)
Definition docx_name (fileName : string) : Prop :=
  ∃ base, base ≠ "" ∧ fileName = base +:+ ".docx".

(** No cell of the grid is [undefined]. *)
Definition all_defined (g : Grid) : Prop :=
  ∀ row : Row, row ∈ g → Undefined ∉ row.

(** The selection is in range and every table comes from a file that passed
    the name filter. *)
Definition well_formed (st : AppState) : Prop :=
  selectedFileIndex st ≤ length (files st) - 1
  ∧ ∀ table, table ∈ files st →
      matches_excel (originalName table) = true
      ∧ name table = remove_extension (originalName table).

(** A value column without a head. *)
Definition headless_column : AppState :=
  one_table [[Str "Label"; Str ""]; [Str "Age"; Num 30]] false true.

(** ** The examples of the source's comments *)

Example transposeData_doc :
  transposeData [[Num 1; Num 2; Num 3]; [Num 4; Num 5; Num 6]]
  = [[Num 1; Num 4]; [Num 2; Num 5]; [Num 3; Num 6]].
Proof. reflexivity. Qed.

Example transposeData_ragged :
  transposeData [[Str "A"; Str "B"]; [Str "1"; Str "2"]; [Str "3"]]
  = [[Str "A"; Str "1"; Str "3"]; [Str "B"; Str "2"; Str ""]].
Proof. reflexivity. Qed.

Example splitIntoColumnPairs_doc :
  splitIntoColumnPairs [[Str "A"; Str "B"; Str "C"]; [Num 1; Num 2; Num 3]]
  = [[[Str "A"; Str "B"]; [Num 1; Num 2]]; [[Str "A"; Str "C"]; [Num 1; Num 3]]].
Proof. reflexivity. Qed.

Example to_String_examples :
  to_String (Num 0) = "0" ∧ to_String (Num 30) = "30" ∧ to_String (Num (-5)) = "-5"
  ∧ nat_to_String 12 = "12" ∧ nat_to_String 0 = "0".
Proof. repeat split; reflexivity. Qed.

(** * Properties *)

(** ** Loops in closed form *)

Section Loops.
Context {St : Type}.

(** A property that every round of the loop keeps holds when it ends. *)
Lemma for_from_invariant (P : St → Prop) (body : nat → St → St) :
  (∀ i s, P s → P (body i s)) →
  ∀ fuel i s, P s → P (for_from fuel i body s).
Proof.
  intros Hstep fuel. induction fuel as [|fuel IH]; intros i s Hs; simpl.
  - exact Hs.
  - apply IH, Hstep, Hs.
Qed.

(** Two bodies that agree on the indices the loop visits give one result. *)
Lemma for_from_ext (body1 body2 : nat → St → St) :
  ∀ fuel i s,
    (∀ k s', i ≤ k < i + fuel → body1 k s' = body2 k s') →
    for_from fuel i body1 s = for_from fuel i body2 s.
Proof.
  induction fuel as [|fuel IH]; intros i s Heq; simpl; [reflexivity|].
  rewrite (Heq i s) by lia. apply IH. intros k s' Hk. apply Heq. lia.
Qed.
End Loops.

(** A loop that appends [g k] in round [k] builds the concatenation. *)
Lemma for_from_append {A : Type} (g : nat → list A) :
  ∀ fuel i acc,
    for_from fuel i (fun k acc => acc ++ g k) acc = acc ++ concat (g <$> seq i fuel).
Proof.
  induction fuel as [|fuel IH]; intros i acc; simpl.
  - by rewrite app_nil_r.
  - rewrite IH. by rewrite <- app_assoc.
Qed.

(** A loop that pushes [f k] in round [k] builds the list of the [f k]. *)
Lemma for_from_push {A : Type} (f : nat → A) :
  ∀ fuel i acc,
    for_from fuel i (fun k acc => acc ++ [f k]) acc = acc ++ (f <$> seq i fuel).
Proof.
  induction fuel as [|fuel IH]; intros i acc; simpl.
  - by rewrite app_nil_r.
  - rewrite IH. by rewrite <- app_assoc.
Qed.

Lemma for_loop_push {A : Type} (f : nat → A) (lo hi : nat) :
  for_loop lo hi (fun k acc => acc ++ [f k]) [] = f <$> seq lo (hi - lo).
Proof. unfold for_loop. by rewrite for_from_push. Qed.

(** ** The maximum row length *)

Lemma Math_max_ge (l : list nat) (x : nat) : x ∈ l → x ≤ Math_max l.
Proof.
  induction l as [|y l IH]; intros Hx; [by apply elem_of_nil in Hx|].
  apply elem_of_cons in Hx as [->|Hx]; simpl; [lia|].
  specialize (IH Hx). lia.
Qed.

Lemma Math_max_elem (l : list nat) : l ≠ [] → Math_max l ∈ l.
Proof.
  induction l as [|y l IH]; intros Hne; [done|]. simpl.
  destruct l as [|z l].
  - simpl. rewrite Nat.max_0_r. apply list_elem_of_here.
  - destruct (Nat.max_spec y (Math_max (z :: l))) as [[_ ->]|[_ ->]].
    + apply list_elem_of_further, IH. done.
    + apply list_elem_of_here.
Qed.

Lemma Math_max_const (n m : nat) : 0 < n → Math_max (replicate n m) = m.
Proof.
  induction n as [|n IH]; intros Hn; [lia|]. simpl.
  destruct n as [|n]; simpl in *; [lia|]. rewrite IH by lia. lia.
Qed.

Lemma or_empty_idemp (v : cell) : or_empty (or_empty v) = or_empty v.
Proof. by destruct v. Qed.

Lemma or_empty_defined (v : cell) : v ≠ Undefined → or_empty v = v.
Proof. by destruct v. Qed.


(** ** transposeData in closed form *)

Lemma transposeData_nonempty (data : Grid) :
  data ≠ [] →
  transposeData data
  = (fun col => (fun r => cell_or_empty data r col) <$> seq 0 (length data))
    <$> seq 0 (Math_max (length <$> data)).
Proof.
  intros Hne. unfold transposeData.
  destruct data as [|row0 data]; [done|].
  change (length (row0 :: data) =? 0)%nat with false. cbv iota zeta.
  set (d := row0 :: data).
  rewrite <- (Nat.sub_0_r (Math_max (length <$> d))) at 2.
  rewrite <- for_loop_push. unfold for_loop.
  apply for_from_ext. intros col acc _. f_equal. f_equal.
  rewrite <- (Nat.sub_0_r (length d)) at 2.
  by rewrite <- for_loop_push.
Qed.


(** ** splitIntoColumnPairs *)

Lemma splitIntoColumnPairs_wide (data : Grid) :
  1 < Math_max (length <$> data) →
  splitIntoColumnPairs data
  = column_pair data <$> seq 1 (Math_max (length <$> data) - 1).
Proof.
  intros Hwide. unfold splitIntoColumnPairs.
  destruct data as [|row0 data]; [simpl in Hwide; lia|].
  change (length (row0 :: data) =? 0)%nat with false. cbv iota zeta.
  destruct (Nat.leb_spec (Math_max (length <$> row0 :: data)) 1) as [Hle|_]; [lia|].
  apply (for_loop_push (column_pair (row0 :: data))).
Qed.

Lemma splitIntoColumnPairs_lookup (data : Grid) (i : nat) :
  i < Math_max (length <$> data) - 1 →
  splitIntoColumnPairs data !! i = Some (column_pair data (i + 1)).
Proof.
  intros Hi. rewrite splitIntoColumnPairs_wide by lia.
  rewrite list_lookup_fmap, lookup_seq_lt by done. simpl. do 2 f_equal. lia.
Qed.


(** C5. A grid of at least one row whose longest row has at most one cell
    is returned as the only element of the result, unchanged. *)
Theorem splitIntoColumnPairs_narrow (data : Grid) :
  0 < length data →
  Math_max (length <$> data) ≤ 1 →
  splitIntoColumnPairs data = [data].
Proof.
  intros Hrows Hnarrow. unfold splitIntoColumnPairs.
  destruct (length data =? 0)%nat; [reflexivity|]. cbv zeta.
  destruct (Nat.leb_spec (Math_max (length <$> data)) 1) as [_|Hgt]; [reflexivity|lia].
Qed.

(** [splitIntoColumnPairs] never returns the empty list. *)
Lemma splitIntoColumnPairs_length (data : Grid) :
  length (splitIntoColumnPairs data)
  = if (1 <? Math_max (length <$> data))%nat then Math_max (length <$> data) - 1 else 1.
Proof.
  destruct (Nat.ltb_spec 1 (Math_max (length <$> data))) as [Hwide|Hnarrow].
  - rewrite splitIntoColumnPairs_wide by done. by rewrite length_fmap, length_seq.
  - unfold splitIntoColumnPairs. destruct (length data =? 0)%nat; [reflexivity|].
    cbv zeta. destruct (Nat.leb_spec (Math_max (length <$> data)) 1); [reflexivity|lia].
Qed.

Lemma splitIntoColumnPairs_nonempty (data : Grid) : 0 < length (splitIntoColumnPairs data).
Proof.
  rewrite splitIntoColumnPairs_length.
  destruct (Nat.ltb_spec 1 (Math_max (length <$> data))); lia.
Qed.

(** ** Transposing twice *)

Lemma tabulate_length n m f : length (tabulate n m f) = n.
Proof. unfold tabulate. by rewrite length_fmap, length_seq. Qed.

Lemma tabulate_lookup n m f r c :
  r < n → c < m → (tabulate n m f !!! r) !!! c = f r c.
Proof.
  intros Hr Hc. unfold tabulate.
  rewrite (list_lookup_total_correct _ r (f r <$> seq 0 m)).
  - apply list_lookup_total_correct.
    by rewrite list_lookup_fmap, lookup_seq_lt.
  - by rewrite list_lookup_fmap, lookup_seq_lt.
Qed.

Lemma tabulate_ext n m f f' :
  (∀ r c, r < n → c < m → f r c = f' r c) → tabulate n m f = tabulate n m f'.
Proof.
  intros Hff'. unfold tabulate.
  apply list_fmap_ext. intros i r [-> Hr]%lookup_seq.
  apply list_fmap_ext. intros j c [-> Hc]%lookup_seq.
  by apply Hff'.
Qed.

Lemma tabulate_row_lengths n m f :
  length <$> tabulate n m f = replicate n m.
Proof.
  unfold tabulate. rewrite <- list_fmap_compose.
  generalize 0 at 2. induction n as [|n IH]; intros i; simpl; [done|].
  by rewrite length_fmap, length_seq, IH.
Qed.

Lemma transposeData_tabulate n m f :
  0 < n → transposeData (tabulate n m f) = tabulate m n (fun c r => or_empty (f r c)).
Proof.
  intros Hn. rewrite transposeData_nonempty.
  2:{ intros Hnil. apply (f_equal length) in Hnil. rewrite tabulate_length in Hnil.
      simpl in Hnil. lia. }
  rewrite tabulate_row_lengths, Math_max_const, tabulate_length by done.
  unfold tabulate at 2.
  apply list_fmap_ext. intros i c [-> Hc]%lookup_seq.
  apply list_fmap_ext. intros j r [-> Hr]%lookup_seq.
  unfold cell_or_empty. by rewrite tabulate_lookup.
Qed.

Lemma fmap_by_index {B : Type} (F : Row → B) (g : Grid) :
  F <$> g = (fun r => F (g !!! r)) <$> seq 0 (length g).
Proof.
  apply list_eq. intros i. rewrite !list_lookup_fmap.
  destruct (decide (i < length g)) as [Hi|Hi].
  - rewrite lookup_seq_lt by done. rewrite (list_lookup_lookup_total_lt g i) by done.
    reflexivity.
  - rewrite lookup_seq_ge by lia. by rewrite lookup_ge_None_2 by lia.
Qed.

Lemma normalize_tabulate (g : Grid) :
  g ≠ [] →
  normalize g = tabulate (length g) (Math_max (length <$> g)) (cell_or_empty g).
Proof.
  intros Hne. unfold normalize. destruct g as [|row0 g]; [done|].
  change (length (row0 :: g) =? 0)%nat with false. cbv iota zeta.
  by rewrite fmap_by_index.
Qed.

(** Transposing twice gives the normalized grid back as soon as the grid has
    a column, whatever the lengths of its rows. *)
Lemma transposeData_involutive (g : Grid) :
  0 < Math_max (length <$> g) →
  transposeData (transposeData (normalize g)) = normalize g.
Proof.
  intros Hcols.
  assert (g ≠ []) as Hne by (intros ->; simpl in Hcols; lia).
  assert (0 < length g) as Hrows by (destruct g; [done|simpl; lia]).
  rewrite normalize_tabulate by done.
  rewrite transposeData_tabulate by done.
  rewrite transposeData_tabulate by done.
  apply tabulate_ext. intros r c _ _. unfold cell_or_empty.
  by rewrite !or_empty_idemp.
Qed.

(** C7, as the specification states it, fails on the rectangular grid of a
    single row without cells: the first transposition has no column to turn
    into a row and returns the grid of zero rows. *)
Lemma transposeData_twice_counterexample :
  ¬ (∀ g : Grid, rectangular g →
       transposeData (transposeData (normalize g)) = normalize g).
Proof.
  intros Hclaim. specialize (Hclaim [[]]).
  assert (rectangular [[]]) as Hrect.
  { intros r1 r2 H1%list_elem_of_singleton H2%list_elem_of_singleton. by subst. }
  specialize (Hclaim Hrect). vm_compute in Hclaim. discriminate Hclaim.
Qed.

(** C7, amended. For a rectangular grid in which every row has at least one
    cell (the grid of zero rows is one), transposing the normalized grid
    twice gives the normalized grid. *)
Theorem transposeData_twice (g : Grid) :
  rectangular g →
  (∀ row : Row, row ∈ g → row ≠ []) →
  transposeData (transposeData (normalize g)) = normalize g.
Proof.
  intros _ Hcells. destruct g as [|row0 g]; [reflexivity|].
  apply transposeData_involutive.
  assert (row0 ≠ []) as Hrow0 by (apply Hcells, list_elem_of_here).
  assert (length row0 ≤ Math_max (length <$> row0 :: g)) as Hle.
  { apply Math_max_ge. rewrite fmap_cons. apply list_elem_of_here. }
  destruct row0; [done|]. simpl in *. lia.
Qed.

Lemma transposeData_twice_witness :
  transposeData (transposeData (normalize [[Str "A"; Str "B"]; [Num 1; Undefined]]))
  = normalize [[Str "A"; Str "B"]; [Num 1; Undefined]].
Proof.
  apply transposeData_twice.
  - intros r1 r2 H1 H2.
    apply elem_of_cons in H1 as [->|H1%list_elem_of_singleton];
      apply elem_of_cons in H2 as [->|H2%list_elem_of_singleton]; by subst.
  - intros row Hrow.
    apply elem_of_cons in Hrow as [->|Hrow%list_elem_of_singleton]; by subst.
Defined.


(** The second pair of that grid: the row [Age] has no third cell. *)
Example splitIntoColumnPairs_missing_cell :
  splitIntoColumnPairs [[Str "Name"; Str "Alice"; Str "Bob"]; [Str "Age"; Num 30]] !! 1
  = Some [[Str "Name"; Str "Bob"]; [Str "Age"; Str ""]].
Proof. reflexivity. Qed.

(** A column that is undefined in every row but the longest one. *)
Example transposeData_missing_cell :
  transposeData [[Str "A"; Undefined; Num 0]; [Str "B"]]
  = [[Str "A"; Str "B"]; [Str ""; Str ""]; [Num 0; Str ""]].
Proof. reflexivity. Qed.

Lemma splitIntoColumnPairs_narrow_witness :
  splitIntoColumnPairs [[Str "Name"]; []; [Num 7]] = [[[Str "Name"]; []; [Num 7]]].
Proof. apply splitIntoColumnPairs_narrow; [simpl; lia | simpl; lia]. Defined.

(** ** Coercions to strings *)

Lemma string_of_uint_nonempty (d : Decimal.uint) : NilZero.string_of_uint d ≠ "".
Proof. destruct d; discriminate. Qed.

Lemma nat_to_String_nonempty (n : nat) : nat_to_String n ≠ "".
Proof. apply string_of_uint_nonempty. Qed.

Lemma Z_to_String_nonempty (n : Z) : Z_to_String n ≠ "".
Proof.
  unfold Z_to_String. destruct (Z.to_int n) as [d|d]; simpl.
  - apply string_of_uint_nonempty.
  - discriminate.
Qed.

(** A value that counts as true is never rendered as the empty string. *)
Lemma truthy_to_String (v : cell) : truthy v = true → to_String v ≠ "".
Proof.
  destruct v as [| |s|n|[|]]; simpl; try discriminate.
  - intros Hs ->. discriminate Hs.
  - intros _. apply Z_to_String_nonempty.
Qed.

Lemma truthy_default_param (v : cell) :
  truthy (default_param v (Str "")) = truthy v.
Proof. by destruct v. Qed.

Lemma default_param_truthy (v : cell) :
  truthy v = true → default_param v (Str "") = v.
Proof. by destruct v. Qed.

(** ** The group name *)

Lemma familyName_truthy (columnPairs : list Grid) (i : nat) :
  truthy (familyName columnPairs i) = true.
Proof.
  unfold familyName, js_or.
  destruct (truthy (opt_index ((columnPairs !!! i) !! 0) 1)) eqn:Hcell; [done|].
  reflexivity.
Qed.

(** C2, as the specification states it, fails on a value column headed by
    the number 0: the cell is not empty, yet the name is the placeholder. *)
Lemma familyName_counterexample :
  ¬ (∀ (data : Grid) (k : nat) (pair : Grid),
       1 ≤ k → k < Math_max (length <$> data) →
       splitIntoColumnPairs data !! (k - 1) = Some pair →
       let v := opt_index (pair !! 0) 1 in
       let resolved := familyName (splitIntoColumnPairs data) (k - 1) in
       (is_empty_cell v = false → resolved = v)
       ∧ (is_empty_cell v = true → resolved = Str ("column" +:+ nat_to_String (k + 1)))
       ∧ to_String resolved ≠ "").
Proof.
  intros Hclaim.
  destruct (Hclaim [[Str "Name"; Num 0]; [Str "Age"; Num 30]] 1
              [[Str "Name"; Num 0]; [Str "Age"; Num 30]])
    as [Hcell _]; [lia | simpl; lia | reflexivity |].
  specialize (Hcell eq_refl). vm_compute in Hcell. discriminate Hcell.
Qed.

(** C2, amended. For the pair built from source column [k >= 1], the group
    name is the second cell of the pair's first row when that cell counts as
    true (a string that is not empty, a number other than 0, [true]), and
    the placeholder [column{k+1}] when it does not (the empty string, [null],
    the number 0, [false]); rendered as text, the name is never the empty
    string. *)
Theorem familyName_resolved (data : Grid) (k : nat) :
  1 ≤ k → k < Math_max (length <$> data) →
  ∃ pair, splitIntoColumnPairs data !! (k - 1) = Some pair
    ∧ let v := opt_index (pair !! 0) 1 in
      let resolved := familyName (splitIntoColumnPairs data) (k - 1) in
      (truthy v = true → resolved = v)
      ∧ (truthy v = false → resolved = Str ("column" +:+ nat_to_String (k + 1)))
      ∧ to_String resolved ≠ "".
Proof.
  intros Hk Hwide.
  assert (splitIntoColumnPairs data !! (k - 1) = Some (column_pair data (k - 1 + 1)))
    as Hpair by (apply splitIntoColumnPairs_lookup; lia).
  eexists. split; [exact Hpair|]. cbv zeta.
  unfold familyName at 1 2, js_or.
  rewrite (list_lookup_total_correct _ _ _ Hpair).
  replace (k - 1 + 2) with (k + 1) by lia.
  split; [|split].
  - by intros ->.
  - by intros ->.
  - apply truthy_to_String, familyName_truthy.
Qed.

Lemma familyName_resolved_witness :
  ∃ pair, splitIntoColumnPairs [[Str "Label"; Str ""]; [Str "Age"; Num 30]] !! (1 - 1)
          = Some pair
    ∧ let v := opt_index (pair !! 0) 1 in
      let resolved :=
        familyName (splitIntoColumnPairs [[Str "Label"; Str ""]; [Str "Age"; Num 30]]) (1 - 1) in
      (truthy v = true → resolved = v)
      ∧ (truthy v = false → resolved = Str ("column" +:+ nat_to_String (1 + 1)))
      ∧ to_String resolved ≠ "".
Proof.
  apply (familyName_resolved [[Str "Label"; Str ""]; [Str "Age"; Num 30]] 1);
    [lia | simpl; lia].
Defined.

Example familyName_placeholder :
  familyName (splitIntoColumnPairs [[Str "Label"; Str ""]; [Str "Age"; Num 30]]) 0
  = Str "column2".
Proof. reflexivity. Qed.

(** ** The title of the document *)

Lemma createWordDocument_title_text (fileData : FileData) (transpose : bool) (suffix : cell) :
  text (title (createWordDocument fileData transpose suffix))
  = "Packing Sheet" +:+ (if truthy suffix then " " +:+ to_String suffix else "").
Proof.
  unfold createWordDocument. simpl. rewrite truthy_default_param.
  destruct (truthy suffix) eqn:Hs; [|reflexivity].
  by rewrite default_param_truthy.
Qed.

Lemma createWordDocument_packing_title (fileData : FileData) (transpose : bool) (suffix : cell) :
  packing_title (createWordDocument fileData transpose suffix).
Proof.
  split; [reflexivity|]. rewrite createWordDocument_title_text.
  destruct (truthy suffix) eqn:Hs; [right|left; reflexivity].
  exists (to_String suffix). split; [by apply truthy_to_String|reflexivity].
Qed.

(** ** Lists and strings *)

Lemma append_length (a b : string) :
  String.length (a +:+ b) = String.length a + String.length b.
Proof. induction a as [|c a IH]; simpl; [done|]. by rewrite IH. Qed.

Lemma append_cons (c : ascii) (a b : string) : String c a +:+ b = String c (a +:+ b).
Proof. reflexivity. Qed.

Lemma append_assoc (a b c : string) : (a +:+ b) +:+ c = a +:+ (b +:+ c).
Proof. induction a as [|x a IH]; [done|]. by rewrite !append_cons, IH. Qed.

Lemma append_inj (p a b : string) : p +:+ a = p +:+ b → a = b.
Proof. induction p as [|c p IH]; simpl; intros Heq; [done|]. injection Heq. auto. Qed.

Lemma append_nonempty_r (a b : string) : b ≠ "" → a +:+ b ≠ "".
Proof.
  intros Hb Heq. apply (f_equal String.length) in Heq.
  rewrite append_length in Heq. destruct b; [done|]. simpl in Heq. lia.
Qed.


Lemma fmap_lookup_total_seq {A B : Type} `{!Inhabited A} (F : A → B) (l : list A) :
  F <$> l = (fun i => F (l !!! i)) <$> seq 0 (length l).
Proof.
  apply list_eq. intros i. rewrite !list_lookup_fmap.
  destruct (decide (i < length l)) as [Hi|Hi].
  - rewrite lookup_seq_lt by done. rewrite (list_lookup_lookup_total_lt l i) by done.
    reflexivity.
  - rewrite lookup_seq_ge by lia. by rewrite lookup_ge_None_2 by lia.
Qed.


(** ** The rounds of an export *)

Lemma concat_singletons {A B : Type} (f : A → B) (l : list A) :
  concat ((fun x => [f x]) <$> l) = f <$> l.
Proof. induction l as [|x l IH]; [reflexivity|]. rewrite !fmap_cons. simpl. by rewrite IH. Qed.

Lemma concat_fmap_fmap {A B C : Type} (g : B → C) (f : A → list B) (l : list A) :
  g <$> concat (f <$> l) = concat ((fun x => g <$> f x) <$> l).
Proof.
  induction l as [|x l IH]; [reflexivity|].
  rewrite !fmap_cons. cbn [concat]. by rewrite fmap_app, IH.
Qed.

Lemma rounds_events_app (rs1 rs2 : list ((string * Document) * bool)) :
  rounds_events (rs1 ++ rs2) = rounds_events rs1 ++ rounds_events rs2.
Proof. unfold rounds_events. by rewrite fmap_app, concat_app. Qed.

Lemma add_artifacts_app (zip : gmap string Document) (l1 l2 : list (string * Document)) :
  add_artifacts zip (l1 ++ l2) = add_artifacts (add_artifacts zip l1) l2.
Proof. apply foldl_app. Qed.

Lemma add_trace_nil (trace : list event) : add_trace trace [] = trace.
Proof. apply app_nil_r. Qed.

Lemma add_trace_app (trace : list event) (rs1 rs2 : list ((string * Document) * bool)) :
  add_trace trace (rs1 ++ rs2) = add_trace (add_trace trace rs1) rs2.
Proof. unfold add_trace. by rewrite rounds_events_app, app_assoc. Qed.

Lemma add_count_nil (s : nat * list event) : add_count s [] = s.
Proof. destruct s as [n trace]. unfold add_count. simpl. by rewrite Nat.add_0_r, app_nil_r. Qed.

Lemma add_count_app (s : nat * list event) (rs1 rs2 : list ((string * Document) * bool)) :
  add_count s (rs1 ++ rs2) = add_count (add_count s rs1) rs2.
Proof.
  unfold add_count. simpl. rewrite rounds_events_app, length_app, app_assoc.
  f_equal. lia.
Qed.

Lemma add_zip_nil (s : gmap string Document * nat) : add_zip s [] = s.
Proof. destruct s as [zip n]. unfold add_zip. simpl. by rewrite Nat.add_0_r. Qed.

Lemma add_zip_app (s : gmap string Document * nat) (rs1 rs2 : list ((string * Document) * bool)) :
  add_zip s (rs1 ++ rs2) = add_zip (add_zip s rs1) rs2.
Proof.
  unfold add_zip. simpl. rewrite fmap_app, add_artifacts_app, length_app.
  f_equal. lia.
Qed.

Section Rounds.

Context `{Libraries}.

Lemma render_app (rs1 rs2 : list ((string * Document) * bool)) :
  render (rs1 ++ rs2)
  = match render rs1 with
    | (done1, None) => ((done1 ++ (render rs2).1), (render rs2).2)
    | (done1, Some error) => (done1, Some error)
    end.
Proof.
  induction rs1 as [|r rs1 IH]; simpl.
  - by destruct (render rs2).
  - destruct (docx_error r.1.2); [reflexivity|]. rewrite IH.
    by destruct (render rs1) as [done1 [error|]].
Qed.

Lemma render_singleton (r : (string * Document) * bool) :
  render [r] = match docx_error r.1.2 with
               | Some error => ([], Some error)
               | None => ([r], None)
               end.
Proof. simpl. by destruct (docx_error r.1.2). Qed.

(** The rounds that go through are the first ones. *)
Lemma render_prefix (rs : list ((string * Document) * bool)) :
  ∃ rest, rs = (render rs).1 ++ rest.
Proof.
  induction rs as [|r rs [rest IH]]; simpl; [by exists []|].
  destruct (docx_error r.1.2); [by eexists|].
  destruct (render rs) as [done thrown]. simpl in *. exists rest. by rewrite <- IH.
Qed.

(** They are all of them when nothing is thrown. *)
Lemma render_all (rs : list ((string * Document) * bool)) :
  (render rs).2 = None → (render rs).1 = rs.
Proof.
  induction rs as [|r rs IH]; simpl; [done|].
  destruct (docx_error r.1.2); [done|].
  destruct (render rs) as [done thrown]. simpl in *. intros ->. by rewrite IH.
Qed.

(** A loop of a [try] block whose round [k] delivers the rounds [R k] up to
    the first document that fails to encode. *)
Lemma for_from_try_rounds {St : Type} (add : St → list ((string * Document) * bool) → St)
    (R : nat → list ((string * Document) * bool))
    (body : nat → St → St * option string) :
  (∀ s, add s [] = s) →
  (∀ s rs1 rs2, add s (rs1 ++ rs2) = add (add s rs1) rs2) →
  ∀ fuel i s,
    (∀ k s', i ≤ k < i + fuel →
       body k s' = (add s' (render (R k)).1, (render (R k)).2)) →
    for_from_try fuel i body s
    = (add s (render (concat (R <$> seq i fuel))).1,
       (render (concat (R <$> seq i fuel))).2).
Proof.
  intros Hnil Happ. induction fuel as [|fuel IH]; intros i s Hbody.
  - simpl. by rewrite Hnil.
  - cbn [for_from_try seq]. rewrite fmap_cons. cbn [concat].
    rewrite Hbody by lia. rewrite render_app.
    destruct (render (R i)) as [done1 [error|]]; [reflexivity|].
    rewrite IH by (intros k s' Hk; apply Hbody; lia).
    cbn [fst snd]. by rewrite Happ.
Qed.

End Rounds.

(** ** The export handlers in closed form *)

Section Exports.

Context `{Libraries}.

(** One round of a loop: the document is encoded, then delivered. *)
Lemma toBlob_round {St : Type} (add : St → list ((string * Document) * bool) → St)
    (r : (string * Document) * bool) (s : St) (delivered : Document → St) :
  add s [] = s →
  delivered r.1.2 = add s [r] →
  match Packer_toBlob r.1.2 with
  | Throw error => (s, Some error)
  | Return blob => (delivered blob, None)
  end
  = (add s (render [r]).1, (render [r]).2).
Proof.
  intros Hnil Hdelivered. rewrite render_singleton. unfold Packer_toBlob.
  destruct (docx_error r.1.2); simpl; congruence.
Qed.

Lemma downloadWordFile_trace (st : AppState) (currentFile : FileData) :
  files st !! selectedFileIndex st = Some currentFile →
  downloadWordFile st
  = rounds_events (render (word_rounds st currentFile)).1
    ++ match (render (word_rounds st currentFile)).2 with
       | None =>
         if splitColumns st
         then [alert ("Successfully downloaded "
                      +:+ nat_to_String (length (columnPairs_of st currentFile))
                      +:+ " Word documents!")]
         else []
       | Some error => caught "Word document" error
       end.
Proof.
  intros Hsel. unfold downloadWordFile. rewrite Hsel.
  destruct (Nat.eqb_spec (length (files st)) 0) as [Hlen|_].
  { apply lookup_lt_Some in Hsel. lia. }
  unfold word_rounds. fold (dataToExport st currentFile).
  fold (columnPairs_of st currentFile).
  destruct (splitColumns st).
  - unfold for_loop_try. rewrite Nat.sub_0_r.
    rewrite (for_from_try_rounds add_trace
               (fun i => [(split_artifact currentFile (columnPairs_of st currentFile) i,
                           (i <? length (columnPairs_of st currentFile) - 1)%nat)]));
      [ | apply add_trace_nil | apply add_trace_app | ].
    + rewrite concat_singletons. unfold add_trace. cbn [app].
      by destruct (render _) as [done [error|]].
    + intros i trace _.
      apply (toBlob_round add_trace
               (split_artifact currentFile (columnPairs_of st currentFile) i,
                (i <? length (columnPairs_of st currentFile) - 1)%nat) trace
               (fun blob =>
                  if (i <? length (columnPairs_of st currentFile) - 1)%nat
                  then (trace ++ [saveAs blob _]) ++ [setTimeout 300]
                  else trace ++ [saveAs blob _])).
      * apply add_trace_nil.
      * unfold add_trace, rounds_events, round_events, save_event. simpl.
        destruct (i <? _)%nat; simpl; by rewrite <- ?app_assoc.
  - rewrite render_singleton. unfold Packer_toBlob. simpl.
    by destruct (docx_error _).
Qed.

Lemma downloadAllWordFiles_trace (st : AppState) :
  files st ≠ [] →
  downloadAllWordFiles st
  = rounds_events (render (all_rounds st)).1
    ++ match (render (all_rounds st)).2 with
       | None =>
         [alert ("Successfully downloaded "
                 +:+ documents_msg (length (render (all_rounds st)).1))]
       | Some error => caught "Word documents" error
       end.
Proof.
  intros Hne. unfold downloadAllWordFiles.
  destruct (Nat.eqb_spec (length (files st)) 0) as [Hlen|_].
  { by destruct (files st). }
  unfold for_loop_try at 1. rewrite Nat.sub_0_r.
  rewrite (for_from_try_rounds add_count (file_rounds st));
    [ | apply add_count_nil | apply add_count_app | ].
  - fold (all_rounds st). unfold add_count. cbn [fst snd app Nat.add].
    by destruct (render (all_rounds st)) as [done [error|]].
  - intros i [totalDocs trace] _. unfold file_rounds.
    fold (dataToExport st (files st !!! i)).
    fold (columnPairs_of st (files st !!! i)).
    destruct (splitColumns st).
    + unfold for_loop_try. rewrite Nat.sub_0_r.
      rewrite (for_from_try_rounds add_count
                 (fun j => [(split_artifact (files st !!! i)
                               (columnPairs_of st (files st !!! i)) j, true)]));
        [ | apply add_count_nil | apply add_count_app | ].
      * by rewrite concat_singletons.
      * intros j [totalDocs' trace'] _.
        apply (toBlob_round add_count
                 (split_artifact (files st !!! i) (columnPairs_of st (files st !!! i)) j,
                  true) (totalDocs', trace')
                 (fun blob => (totalDocs' + 1,
                               (trace' ++ [saveAs blob _]) ++ [setTimeout 300]))).
        -- apply add_count_nil.
        -- unfold add_count, rounds_events, round_events, save_event. simpl.
           by rewrite <- app_assoc.
    + rewrite render_singleton. unfold Packer_toBlob. simpl.
      destruct (docx_error _); [by rewrite add_count_nil|].
      unfold add_count, rounds_events, round_events, save_event. simpl.
      destruct (i <? _)%nat; simpl; by rewrite <- ?app_assoc.
Qed.

Lemma zip_rounds_concat (st : AppState) :
  zip_rounds st
  = concat ((fun i => (fun a => (a, false)) <$> file_artifacts st i)
            <$> seq 0 (length (files st))).
Proof. unfold zip_rounds, artifacts. apply concat_fmap_fmap. Qed.

Lemma zip_entries_rounds (st : AppState) :
  zip_entries st
  = (add_zip (∅, 0) (render (zip_rounds st)).1, (render (zip_rounds st)).2).
Proof.
  unfold zip_entries. unfold for_loop_try at 1. rewrite Nat.sub_0_r.
  rewrite zip_rounds_concat.
  apply (for_from_try_rounds add_zip
           (fun i => (fun a => (a, false)) <$> file_artifacts st i));
    [ apply add_zip_nil | apply add_zip_app | ].
  intros i [zip totalDocs] _. unfold file_artifacts.
  fold (dataToExport st (files st !!! i)).
  fold (columnPairs_of st (files st !!! i)).
  destruct (splitColumns st).
  - unfold for_loop_try. rewrite Nat.sub_0_r.
    rewrite (for_from_try_rounds add_zip
               (fun j => [(split_artifact (files st !!! i)
                             (columnPairs_of st (files st !!! i)) j, false)]));
      [ | apply add_zip_nil | apply add_zip_app | ].
    + by rewrite concat_singletons, <- list_fmap_compose.
    + intros j [zip' totalDocs'] _.
      apply (toBlob_round add_zip
               (split_artifact (files st !!! i) (columnPairs_of st (files st !!! i)) j,
                false) (zip', totalDocs')
               (fun blob => (folder_file zip' _ blob, totalDocs' + 1)));
        [apply add_zip_nil | reflexivity].
  - rewrite fmap_cons, fmap_nil, render_singleton. unfold Packer_toBlob. simpl.
    destruct (docx_error _); [by rewrite add_zip_nil|reflexivity].
Qed.

Lemma zip_rounds_artifacts (st : AppState) : (zip_rounds st).*1 = artifacts st.
Proof.
  unfold zip_rounds. rewrite <- list_fmap_compose. apply list_fmap_id.
Qed.

Lemma downloadZipFile_trace (st : AppState) :
  files st ≠ [] →
  downloadZipFile st
  = match (render (zip_rounds st)).2 with
    | Some error => caught "zip file" error
    | None =>
      match zip_error (add_artifacts ∅ (artifacts st)) with
      | Some error => caught "zip file" error
      | None =>
        [saveAs_zip (add_artifacts ∅ (artifacts st)) "converted_files.zip";
         alert ("Successfully created zip file with "
                +:+ documents_msg (length (artifacts st)))]
      end
    end.
Proof.
  intros Hne. unfold downloadZipFile.
  destruct (Nat.eqb_spec (length (files st)) 0) as [Hlen|_].
  { by destruct (files st). }
  rewrite zip_entries_rounds.
  destruct (render (zip_rounds st)) as [done [error|]] eqn:Hrender; [reflexivity|].
  pose proof (render_all (zip_rounds st)) as Hall. rewrite Hrender in Hall.
  cbn [fst snd] in *. rewrite Hall by done.
  unfold add_zip. cbn [fst snd Nat.add]. rewrite zip_rounds_artifacts.
  unfold zip_rounds. rewrite length_fmap.
  by destruct (zip_error _).
Qed.

End Exports.

(** ** The artifacts of the working set *)

Lemma add_artifacts_dom (l : list (string * Document)) :
  ∀ zip : gmap string Document,
    dom (add_artifacts zip l)
    = dom zip ∪ list_to_set ((fun a => "converted_files/" +:+ a.1) <$> l).
Proof.
  induction l as [|a l IH]; intros zip; simpl.
  - by rewrite union_empty_r_L.
  - rewrite IH. unfold folder_file. rewrite dom_insert_L.
    rewrite (union_comm_L {[ _ ]} (dom zip)). by rewrite <- union_assoc_L.
Qed.


Lemma add_artifacts_titles (l : list (string * Document)) :
  ∀ zip : gmap string Document,
    map_Forall (fun _ blob => packing_title blob) zip →
    Forall (fun a => packing_title a.2) l →
    map_Forall (fun _ blob => packing_title blob) (add_artifacts zip l).
Proof.
  induction l as [|a l IH]; intros zip Hzip Hl; simpl; [done|].
  apply Forall_cons in Hl as [Ha Hl].
  apply IH; [|done]. unfold folder_file. by apply map_Forall_insert_2.
Qed.


(** The artifacts depend on the working set and on the two options only. *)
Lemma artifacts_deterministic (st st' : AppState) :
  files st' = files st → transpose st' = transpose st →
  splitColumns st' = splitColumns st →
  artifacts st' = artifacts st.
Proof.
  intros Hfiles Htranspose Hsplit. unfold artifacts. rewrite Hfiles.
  f_equal. apply list_fmap_ext. intros i k _.
  unfold file_artifacts, columnPairs_of, dataToExport.
  by rewrite Hfiles, Htranspose, Hsplit.
Qed.


Lemma all_rounds_artifacts (st : AppState) : (all_rounds st).*1 = artifacts st.
Proof.
  unfold all_rounds, artifacts. rewrite concat_fmap_fmap. f_equal.
  apply list_fmap_ext. intros i k _. unfold file_rounds, file_artifacts.
  destruct (splitColumns st); [|reflexivity].
  rewrite <- list_fmap_compose. by apply list_fmap_ext.
Qed.

Lemma word_rounds_artifacts (st : AppState) (currentFile : FileData) :
  (word_rounds st currentFile).*1
  = if splitColumns st
    then split_artifact currentFile (columnPairs_of st currentFile)
         <$> seq 0 (length (columnPairs_of st currentFile))
    else [whole_artifact (transpose st) currentFile "converted"].
Proof.
  unfold word_rounds. destruct (splitColumns st); [|reflexivity].
  rewrite <- list_fmap_compose. by apply list_fmap_ext.
Qed.

Lemma word_rounds_nonempty (st : AppState) (currentFile : FileData) :
  word_rounds st currentFile ≠ [].
Proof.
  intros Hnil. apply (f_equal length) in Hnil. revert Hnil.
  unfold word_rounds. destruct (splitColumns st); [|done].
  rewrite length_fmap, length_seq.
  pose proof (splitIntoColumnPairs_nonempty (dataToExport st currentFile)) as Hpairs.
  fold (columnPairs_of st currentFile) in Hpairs. simpl. lia.
Qed.

(** ** What the exports save *)

Lemma saved_files_app (t1 t2 : list event) :
  saved_files (t1 ++ t2) = saved_files t1 ++ saved_files t2.
Proof. unfold saved_files. apply omap_app. Qed.

Lemma saved_files_rounds_events (rs : list ((string * Document) * bool)) :
  saved_files (rounds_events rs) = rs.*1.
Proof.
  induction rs as [|[[fileName blob] pause] rs IH]; [reflexivity|].
  rewrite fmap_cons. unfold rounds_events in *. rewrite fmap_cons. cbn [concat].
  rewrite saved_files_app, IH. by destruct pause.
Qed.

Section Saved.

Context `{Libraries}.

(** The files the exports save are the artifacts of the rounds that went
    through. *)
Lemma saved_files_downloadWordFile (st : AppState) (currentFile : FileData) :
  files st !! selectedFileIndex st = Some currentFile →
  saved_files (downloadWordFile st) = (render (word_rounds st currentFile)).1.*1.
Proof.
  intros Hsel. rewrite (downloadWordFile_trace st currentFile) by done.
  rewrite saved_files_app, saved_files_rounds_events.
  destruct (render _).2; [by rewrite app_nil_r|].
  destruct (splitColumns st); by rewrite app_nil_r.
Qed.

Lemma saved_files_downloadAllWordFiles (st : AppState) :
  saved_files (downloadAllWordFiles st) = (render (all_rounds st)).1.*1.
Proof.
  destruct (decide (files st = [])) as [Hnil|Hne].
  - unfold downloadAllWordFiles, all_rounds. by rewrite Hnil.
  - rewrite downloadAllWordFiles_trace by done.
    rewrite saved_files_app, saved_files_rounds_events.
    destruct (render _).2; by rewrite app_nil_r.
Qed.

(** A trace without a logged error comes from rounds that all went
    through. *)
Lemma downloadWordFile_no_error (st : AppState) (currentFile : FileData) :
  files st !! selectedFileIndex st = Some currentFile →
  no_error (downloadWordFile st) →
  render (word_rounds st currentFile) = (word_rounds st currentFile, None).
Proof.
  intros Hsel Hno. rewrite (downloadWordFile_trace st currentFile) in Hno by done.
  pose proof (render_all (word_rounds st currentFile)) as Hall.
  destruct (render (word_rounds st currentFile)) as [done [error|]]; simpl in *.
  - exfalso. apply (Hno "Error creating Word document:" error).
    apply elem_of_app. right. apply list_elem_of_here.
  - by rewrite Hall.
Qed.

Lemma downloadAllWordFiles_no_error (st : AppState) :
  no_error (downloadAllWordFiles st) →
  render (all_rounds st) = (all_rounds st, None).
Proof.
  intros Hno. destruct (decide (files st = [])) as [Hnil|Hne].
  { unfold all_rounds. by rewrite Hnil. }
  rewrite downloadAllWordFiles_trace in Hno by done.
  pose proof (render_all (all_rounds st)) as Hall.
  destruct (render (all_rounds st)) as [done [error|]]; simpl in *.
  - exfalso. apply (Hno "Error creating Word documents:" error).
    apply elem_of_app. right. apply list_elem_of_here.
  - by rewrite Hall.
Qed.

(** An archive is saved only when every document went in and the archive
    was generated. *)
Lemma downloadZipFile_saved (st : AppState) (zipBlob : gmap string Document)
    (fileName : string) :
  saveAs_zip zipBlob fileName ∈ downloadZipFile st →
  files st ≠ []
  ∧ render (zip_rounds st) = (zip_rounds st, None)
  ∧ downloadZipFile st
    = [saveAs_zip (add_artifacts ∅ (artifacts st)) "converted_files.zip";
       alert ("Successfully created zip file with "
              +:+ documents_msg (length (artifacts st)))].
Proof.
  intros Hin. destruct (decide (files st = [])) as [Hnil|Hne].
  { unfold downloadZipFile in Hin. rewrite Hnil in Hin. simpl in Hin.
    by apply list_elem_of_singleton in Hin. }
  split; [done|]. rewrite downloadZipFile_trace in * by done.
  pose proof (render_all (zip_rounds st)) as Hall.
  destruct (render (zip_rounds st)) as [done [error|]]; simpl in *.
  { apply elem_of_cons in Hin as [Hin|Hin%list_elem_of_singleton]; done. }
  rewrite Hall by done. split; [done|].
  destruct (zip_error _).
  { apply elem_of_cons in Hin as [Hin|Hin%list_elem_of_singleton]; done. }
  done.
Qed.

End Saved.

(** ** Titles and names of the exported documents *)

Lemma split_artifact_name (file : FileData) (columnPairs : list Grid) (j : nat) :
  docx_name (split_artifact file columnPairs j).1.
Proof.
  exists (name file +:+ "_" +:+ to_String (familyName columnPairs j)). split.
  - by apply append_nonempty_r.
  - simpl. by rewrite !append_assoc.
Qed.

Lemma whole_artifact_name (transpose : bool) (file : FileData) (fallback : string) :
  fallback ≠ "" → docx_name (whole_artifact transpose file fallback).1.
Proof.
  intros Hfallback. exists (to_String (js_or (Str (name file)) (Str fallback))).
  split; [|reflexivity].
  unfold js_or. simpl. destruct (name file) as [|c s]; [exact Hfallback|done].
Qed.

(** An artifact as the exports make them: its title is a packing title and
    its name a name of a Word document. *)
Lemma split_artifact_title (file : FileData) (columnPairs : list Grid) (j : nat) :
  packing_title (split_artifact file columnPairs j).2.
Proof. apply createWordDocument_packing_title. Qed.

Lemma whole_artifact_title (transpose : bool) (file : FileData) (fallback : string) :
  packing_title (whole_artifact transpose file fallback).2.
Proof. apply createWordDocument_packing_title. Qed.

Lemma file_artifacts_made (st : AppState) (i : nat) :
  Forall (fun a => packing_title a.2 ∧ docx_name a.1) (file_artifacts st i).
Proof.
  unfold file_artifacts. destruct (splitColumns st).
  - apply Forall_fmap, Forall_forall. intros j _.
    split; [apply split_artifact_title|apply split_artifact_name].
  - constructor; [|constructor].
    split; [apply whole_artifact_title|by apply whole_artifact_name].
Qed.

Lemma artifacts_made (st : AppState) :
  Forall (fun a => packing_title a.2 ∧ docx_name a.1) (artifacts st).
Proof.
  unfold artifacts. apply Forall_concat, Forall_fmap, Forall_forall.
  intros i _. apply file_artifacts_made.
Qed.

Lemma word_rounds_made (st : AppState) (currentFile : FileData) :
  Forall (fun a => packing_title a.2 ∧ docx_name a.1) ((word_rounds st currentFile).*1).
Proof.
  rewrite word_rounds_artifacts. destruct (splitColumns st).
  - apply Forall_fmap, Forall_forall. intros j _.
    split; [apply split_artifact_title|apply split_artifact_name].
  - constructor; [|constructor].
    split; [apply whole_artifact_title|by apply whole_artifact_name].
Qed.

Lemma rounds_events_titles (rs : list ((string * Document) * bool)) :
  Forall (fun a => packing_title a.2) (rs.*1) → Forall titles_ok (rounds_events rs).
Proof.
  intros Hrs. unfold rounds_events. apply Forall_concat, Forall_fmap.
  rewrite Forall_fmap in Hrs. eapply Forall_impl; [exact Hrs|].
  intros [[fileName blob] pause] Htitle. simpl in *.
  constructor; [exact Htitle|]. destruct pause; by repeat constructor.
Qed.

Section Made.

Context `{Libraries}.

(** What holds of every round holds of the rounds that went through. *)
Lemma render_Forall (P : string * Document → Prop) (rs : list ((string * Document) * bool)) :
  Forall P (rs.*1) → Forall P ((render rs).1.*1).
Proof.
  intros Hrs. destruct (render_prefix rs) as [rest Heq].
  rewrite Heq, fmap_app in Hrs. by apply Forall_app in Hrs as [Hdone _].
Qed.

Lemma downloadWordFile_titles (st : AppState) : Forall titles_ok (downloadWordFile st).
Proof.
  destruct (files st !! selectedFileIndex st) as [currentFile|] eqn:Hsel.
  - rewrite (downloadWordFile_trace st currentFile) by done.
    apply Forall_app. split.
    + apply rounds_events_titles, render_Forall.
      eapply Forall_impl; [apply word_rounds_made|]. by intros a [? _].
    + destruct (render _).2; [by repeat constructor|].
      destruct (splitColumns st); by repeat constructor.
  - unfold downloadWordFile. rewrite Hsel.
    destruct (length (files st) =? 0)%nat; by repeat constructor.
Qed.

Lemma downloadAllWordFiles_titles (st : AppState) :
  Forall titles_ok (downloadAllWordFiles st).
Proof.
  destruct (decide (files st = [])) as [Hnil|Hne].
  - unfold downloadAllWordFiles. rewrite Hnil. by repeat constructor.
  - rewrite downloadAllWordFiles_trace by done.
    apply Forall_app. split.
    + apply rounds_events_titles, render_Forall. rewrite all_rounds_artifacts.
      eapply Forall_impl; [apply artifacts_made|]. by intros a [? _].
    + destruct (render _).2; by repeat constructor.
Qed.

Lemma downloadZipFile_titles (st : AppState) : Forall titles_ok (downloadZipFile st).
Proof.
  destruct (decide (files st = [])) as [Hnil|Hne].
  - unfold downloadZipFile. rewrite Hnil. by repeat constructor.
  - rewrite downloadZipFile_trace by done.
    destruct (render _).2; [by repeat constructor|].
    destruct (zip_error _); [by repeat constructor|].
    constructor; [|by repeat constructor]. simpl.
    apply add_artifacts_titles; [apply map_Forall_empty|].
    eapply Forall_impl; [apply artifacts_made|]. by intros a [? _].
Qed.

End Made.

(** C1, as the specification states it, fails on a file named [report]: the
    title of its document does not read [report]. *)
Lemma createWordDocument_title_counterexample :
  ¬ (∀ (fileData : FileData) (transpose : bool) (suffix : string),
       text (title (createWordDocument fileData transpose (Str suffix)))
       = name fileData +:+ (if String.eqb suffix "" then "" else " " +:+ suffix)).
Proof.
  intros Hclaim.
  specialize (Hclaim {| name := "report"; data := [[Str "Item"; Num 2]];
                        originalName := "report.xlsx" |} false "").
  vm_compute in Hclaim. discriminate Hclaim.
Qed.

(** C1, amended. The document [createWordDocument] builds begins with a bold
    title whose text is the fixed string [Packing Sheet], followed by a space
    and the suffix when the suffix counts as true (for a string: when it is
    not empty); the name of the file is not part of it. Every document that
    one of the three exports saves or puts into the archive has such a
    title. *)
Theorem createWordDocument_title `{Libraries} :
  (∀ (fileData : FileData) (transpose : bool) (suffix : cell),
     bold (title (createWordDocument fileData transpose suffix)) = true
     ∧ text (title (createWordDocument fileData transpose suffix))
       = "Packing Sheet" +:+ (if truthy suffix then " " +:+ to_String suffix else ""))
  ∧ (∀ st : AppState,
       Forall titles_ok (downloadWordFile st)
       ∧ Forall titles_ok (downloadAllWordFiles st)
       ∧ Forall titles_ok (downloadZipFile st)).
Proof.
  split.
  - intros fileData transpose suffix. split; [reflexivity|].
    apply createWordDocument_title_text.
  - intros st. split; [|split].
    + apply downloadWordFile_titles.
    + apply downloadAllWordFiles_titles.
    + apply downloadZipFile_titles.
Qed.

(** ** File names *)

(** X15. Every file any export saves is named with a base that is not empty
    followed by [.docx], also when the table has no name; every entry of the
    archive is such a name under [converted_files/]. *)
Theorem export_file_names `{Libraries} (st : AppState) :
  Forall (fun a => docx_name a.1) (saved_files (downloadWordFile st))
  ∧ Forall (fun a => docx_name a.1) (saved_files (downloadAllWordFiles st))
  ∧ Forall (fun e => match e with
                     | saveAs_zip zipBlob _ =>
                       ∀ path, is_Some (zipBlob !! path) →
                         ∃ fileName, path = "converted_files/" +:+ fileName
                                     ∧ docx_name fileName
                     | _ => True
                     end) (downloadZipFile st).
Proof.
  split; [|split].
  - destruct (files st !! selectedFileIndex st) as [currentFile|] eqn:Hsel.
    + rewrite (saved_files_downloadWordFile st currentFile) by done.
      apply render_Forall.
      eapply Forall_impl; [apply word_rounds_made|]. by intros a [_ ?].
    + unfold downloadWordFile. rewrite Hsel.
      destruct (length (files st) =? 0)%nat; constructor.
  - rewrite saved_files_downloadAllWordFiles. apply render_Forall.
    rewrite all_rounds_artifacts.
    eapply Forall_impl; [apply artifacts_made|]. by intros a [_ ?].
  - destruct (decide (files st = [])) as [Hnil|Hne].
    + unfold downloadZipFile. rewrite Hnil. by repeat constructor.
    + rewrite downloadZipFile_trace by done.
      destruct (render _).2; [by repeat constructor|].
      destruct (zip_error _); [by repeat constructor|].
      constructor; [|by repeat constructor].
      intros path. rewrite <- elem_of_dom, add_artifacts_dom, dom_empty_L, union_empty_l_L.
      rewrite elem_of_list_to_set, list_elem_of_fmap. intros (a & -> & Ha).
      exists a.1. split; [reflexivity|].
      pose proof (artifacts_made st) as Hmade.
      rewrite Forall_forall in Hmade. by apply Hmade.
Qed.

Example nameless_table_names :
  (saved_files (downloadWordFile (H := reliable) (selectFile three_tables 2))).*1
  = ["converted.docx"]
  ∧ (saved_files (downloadAllWordFiles (H := reliable) three_tables)).*1
    = ["north.docx"; "south.docx"; "converted_3.docx"].
Proof. split; reflexivity. Qed.

(** ** Traces without an error *)

Lemma logs_error_false (trace : list event) : logs_error trace = false → no_error trace.
Proof.
  intros Hlogs msg error Hin. unfold logs_error in Hlogs.
  assert (existsb (fun e => match e with
                            | console_error _ _ => true
                            | _ => false
                            end) trace = true) as Htrue; [|congruence].
  apply existsb_exists. exists (console_error msg error).
  split; [by apply list_elem_of_In|reflexivity].
Qed.

Lemma no_error_app (t1 t2 : list event) : no_error t1 → no_error t2 → no_error (t1 ++ t2).
Proof. intros H1 H2 msg error [Hin|Hin]%elem_of_app; [by eapply H1|by eapply H2]. Qed.

Lemma no_error_rounds_events (rs : list ((string * Document) * bool)) :
  no_error (rounds_events rs).
Proof.
  induction rs as [|[a pause] rs IH]; [by intros msg error ?%elem_of_nil|].
  unfold rounds_events in *. rewrite fmap_cons. cbn [concat].
  apply no_error_app; [|exact IH]. apply logs_error_false. by destruct pause.
Qed.

(** ** The pause between downloads *)

(** Rounds that pause after each artifact but the last of [N], followed by
    events that are neither saves nor pauses. *)
Lemma paced_rounds_ok (a : nat → string * Document) (N : nat) (rest : list event) :
  (∀ after_save, delays_between_saves after_save rest = true) →
  ∀ fuel i after_save,
    i + fuel = N →
    delays_between_saves after_save
      (rounds_events ((fun k => (a k, (k <? N - 1)%nat)) <$> seq i fuel) ++ rest) = true.
Proof.
  intros Hrest. induction fuel as [|fuel IH]; intros i after_save Hsum; [apply Hrest|].
  cbn [seq]. unfold rounds_events in *. rewrite !fmap_cons. cbn [concat round_events snd].
  destruct (Nat.ltb_spec i (N - 1)) as [Hlt|Hge].
  - destruct fuel as [|fuel]; [lia|].
    specialize (IH (S i) false ltac:(lia)).
    cbn [seq] in *. rewrite !fmap_cons in *. cbn [concat round_events] in *.
    simpl. simpl in IH. exact IH.
  - destruct fuel as [|fuel]; [|lia]. simpl. apply Hrest.
Qed.

(** A trace in which a pause is followed by an event that is not a save
    breaks the rule. *)
Lemma trailing_delay_breaks (trace rest : list event) (ms : nat) :
  match rest with saveAs _ _ :: _ => False | _ => True end →
  ∀ after_save,
    delays_between_saves after_save (trace ++ setTimeout ms :: rest) = false.
Proof.
  intros Hrest. induction trace as [|e trace IH]; intros after_save.
  - simpl. destruct rest as [|[] rest]; by rewrite ?andb_false_r.
  - destruct e; simpl; rewrite ?IH, ?andb_false_r; reflexivity.
Qed.

Section Delays.

Context `{Libraries}.

(** The current-file export that logs no error pauses between artifacts
    only. *)
Lemma downloadWordFile_delays (st : AppState) :
  no_error (downloadWordFile st) →
  delays_between_saves false (downloadWordFile st) = true.
Proof.
  intros Hno. destruct (files st !! selectedFileIndex st) as [currentFile|] eqn:Hsel.
  - pose proof (downloadWordFile_no_error st currentFile Hsel Hno) as Hrender.
    rewrite (downloadWordFile_trace st currentFile) by done. rewrite Hrender.
    cbn [fst snd]. unfold word_rounds. destruct (splitColumns st); [|reflexivity].
    apply (paced_rounds_ok (split_artifact currentFile (columnPairs_of st currentFile)));
      [done|lia].
  - unfold downloadWordFile. rewrite Hsel.
    by destruct (length (files st) =? 0)%nat.
Qed.

(** So does the all-files export without splitting. *)
Lemma downloadAllWordFiles_whole_delays (st : AppState) :
  splitColumns st = false →
  no_error (downloadAllWordFiles st) →
  delays_between_saves false (downloadAllWordFiles st) = true.
Proof.
  intros Hsplit Hno. destruct (decide (files st = [])) as [Hnil|Hne].
  - unfold downloadAllWordFiles. by rewrite Hnil.
  - rewrite downloadAllWordFiles_trace by done.
    rewrite (downloadAllWordFiles_no_error st Hno). cbn [fst snd].
    unfold all_rounds, file_rounds. rewrite Hsplit.
    rewrite (concat_singletons
               (fun i => (whole_artifact (transpose st) (files st !!! i)
                            ("converted_" +:+ nat_to_String (i + 1)),
                          (i <? length (files st) - 1)%nat))).
    apply (paced_rounds_ok
             (fun i => whole_artifact (transpose st) (files st !!! i)
                         ("converted_" +:+ nat_to_String (i + 1)))); [done|lia].
Qed.

(** With splitting on, the all-files export that saves anything pauses
    after the last artifact it saves, whether it ends with its report or
    with an error. *)
Lemma downloadAllWordFiles_split_delays (st : AppState) :
  splitColumns st = true →
  saved_files (downloadAllWordFiles st) ≠ [] →
  delays_between_saves false (downloadAllWordFiles st) = false.
Proof.
  intros Hsplit Hsaved. rewrite saved_files_downloadAllWordFiles in Hsaved.
  assert (files st ≠ []) as Hne.
  { intros Hnil. apply Hsaved. unfold all_rounds. by rewrite Hnil. }
  rewrite downloadAllWordFiles_trace by done.
  destruct (render_prefix (all_rounds st)) as [rest Hrest].
  assert (Forall (fun r => r.2 = true) (all_rounds st)) as Hpauses.
  { unfold all_rounds. apply Forall_concat, Forall_fmap, Forall_forall. intros i _.
    unfold file_rounds. rewrite Hsplit. simpl. by apply Forall_fmap, Forall_forall. }
  rewrite Hrest, Forall_app in Hpauses. destruct Hpauses as [Hpauses _].
  destruct (render (all_rounds st)) as [done thrown]. cbn [fst snd] in *.
  destruct done as [|r done _] using rev_ind; [done|].
  rewrite Forall_app, Forall_singleton in Hpauses. destruct Hpauses as [_ Hr].
  rewrite rounds_events_app. destruct r as [a pause]. simpl in Hr. subst pause.
  unfold rounds_events at 2. simpl.
  rewrite <- app_assoc. cbn [app]. rewrite (cons_middle (save_event a)), app_assoc.
  apply trailing_delay_breaks. by destruct thrown.
Qed.

(** C3. The all-files export with splitting on pauses after every
    artifact, the last one too: on two tables of two columns, when no error
    is logged, the two documents are saved, each followed by a wait of
    300 ms, and the report comes after the second wait. It is so on every
    working set and also when a document fails
    ([downloadAllWordFiles_split_delays]), while the current-file export
    ([downloadWordFile_delays]) and the all-files export without splitting
    ([downloadAllWordFiles_whole_delays]) pause between artifacts only. *)
Theorem downloadAllWordFiles_trailing_delay :
  no_error (downloadAllWordFiles two_tables_split) →
  (∃ blob1 blob2,
     downloadAllWordFiles two_tables_split
     = [saveAs blob1 "north_Alice.docx";
        setTimeout 300;
        saveAs blob2 "south_Bob.docx";
        setTimeout 300;
        alert "Successfully downloaded 2 Word documents!"])
  ∧ delays_between_saves false (downloadAllWordFiles two_tables_split) = false.
Proof.
  intros Hno. rewrite downloadAllWordFiles_trace by done.
  rewrite (downloadAllWordFiles_no_error two_tables_split Hno).
  split; [eexists; eexists|]; reflexivity.
Qed.

End Delays.

Lemma downloadAllWordFiles_trailing_delay_witness :
  (∃ blob1 blob2,
     @downloadAllWordFiles reliable two_tables_split
     = [saveAs blob1 "north_Alice.docx";
        setTimeout 300;
        saveAs blob2 "south_Bob.docx";
        setTimeout 300;
        alert "Successfully downloaded 2 Word documents!"])
  ∧ delays_between_saves false (@downloadAllWordFiles reliable two_tables_split) = false.
Proof.
  apply (@downloadAllWordFiles_trailing_delay reliable).
  apply logs_error_false. reflexivity.
Defined.

(** ** The archive export *)




Section Archive.

Context `{Libraries}.

(** C8. Two tables of one name, from [a.xlsx] and from [a.xls], exported
    as an archive without splitting: whenever the archive is saved, its
    report counts 2 Word documents, one for each table, but the archive
    holds a single document entry, [converted_files/a.docx], whose content
    is the document of the second table: the entry of the first table was
    replaced. *)
Theorem downloadZipFile_same_name_tables (zipBlob : gmap string Document)
    (fileName : string) :
  saveAs_zip zipBlob fileName ∈ downloadZipFile same_name_tables →
  downloadZipFile same_name_tables
  = [saveAs_zip zipBlob "converted_files.zip";
     alert "Successfully created zip file with 2 Word documents!"]
  ∧ length (files same_name_tables) = 2
  ∧ base.size zipBlob = 1
  ∧ zipBlob
    = {[ "converted_files/a.docx"
         := createWordDocument
              {| name := "a"; data := [[Str "y"]]; originalName := "a.xls" |}
              false Undefined ]}.
Proof.
  intros Hin. destruct (downloadZipFile_saved _ _ _ Hin) as (_ & _ & Htrace).
  rewrite Htrace in Hin.
  apply elem_of_cons in Hin as [Hin|Hin%list_elem_of_singleton]; [|done].
  injection Hin as -> ->. rewrite Htrace.
  split; [reflexivity|]. split; [reflexivity|].
  split; vm_compute; reflexivity.
Qed.



End Archive.

Lemma downloadZipFile_same_name_tables_witness :
  @downloadZipFile reliable same_name_tables
  = [saveAs_zip (add_artifacts ∅ (artifacts same_name_tables)) "converted_files.zip";
     alert "Successfully created zip file with 2 Word documents!"]
  ∧ length (files same_name_tables) = 2
  ∧ base.size (add_artifacts ∅ (artifacts same_name_tables)) = 1
  ∧ add_artifacts ∅ (artifacts same_name_tables)
    = {[ "converted_files/a.docx"
         := createWordDocument
              {| name := "a"; data := [[Str "y"]]; originalName := "a.xls" |}
              false Undefined ]}.
Proof.
  apply (@downloadZipFile_same_name_tables reliable
           (add_artifacts ∅ (artifacts same_name_tables)) "converted_files.zip").
  vm_compute. apply list_elem_of_here.
Defined.



(** The archive of a working set whose file names are distinct. *)
Example three_tables_names :
  (artifacts three_tables).*1 = ["north.docx"; "south.docx"; "converted_3.docx"].
Proof. reflexivity. Qed.

(** A document that fails to encode: nothing is saved, the error is logged
    and reported. *)
Example empty_second_table_archive :
  @downloadZipFile docx_needs_rows empty_second_table
  = [console_error "Error creating zip file:" "Invalid array length";
     alert "Error creating zip file. Please try again."].
Proof. reflexivity. Qed.

(** ** How many documents the exports save *)

Section Counts.

Context `{Libraries}.


(** X14. With a table selected, the current-file export without splitting
    either saves exactly one document and shows no message, or saves
    nothing, logs the error and reports it; with splitting it saves at most
    one document for each pair and, when it logs no error, one for each
    pair, at least one, before it ends with a report of their number. *)
Theorem downloadWordFile_count (st : AppState) (currentFile : FileData) :
  files st !! selectedFileIndex st = Some currentFile →
  (splitColumns st = false →
     (∃ blob fileName, downloadWordFile st = [saveAs blob fileName])
     ∨ (∃ error,
          downloadWordFile st
          = [console_error "Error creating Word document:" error;
             alert "Error creating Word document. Please try again."]))
  ∧ (splitColumns st = true →
       length (saved_files (downloadWordFile st))
       ≤ length (splitIntoColumnPairs
                   (if transpose st then transposeData (data currentFile)
                    else data currentFile))
       ∧ (no_error (downloadWordFile st) →
            0 < length (saved_files (downloadWordFile st))
            ∧ length (saved_files (downloadWordFile st))
              = length (splitIntoColumnPairs
                          (if transpose st then transposeData (data currentFile)
                           else data currentFile))
            ∧ last (downloadWordFile st)
              = Some (alert ("Successfully downloaded "
                             +:+ nat_to_String (length (saved_files (downloadWordFile st)))
                             +:+ " Word documents!")))).
Proof.
  intros Hsel. fold (dataToExport st currentFile). fold (columnPairs_of st currentFile).
  split; intros Hsplit.
  - rewrite (downloadWordFile_trace st currentFile) by done.
    unfold word_rounds. rewrite Hsplit, render_singleton.
    destruct (docx_error _) as [error|]; [right; by exists error|left; by do 2 eexists].
  - assert (length (word_rounds st currentFile) = length (columnPairs_of st currentFile))
      as Hrounds.
    { unfold word_rounds. rewrite Hsplit. by rewrite length_fmap, length_seq. }
    rewrite (saved_files_downloadWordFile st currentFile), length_fmap by done. split.
    + destruct (render_prefix (word_rounds st currentFile)) as [rest Hrest].
      rewrite <- Hrounds. rewrite Hrest at 2. rewrite length_app. lia.
    + intros Hno. pose proof (downloadWordFile_no_error st currentFile Hsel Hno) as Hall.
      rewrite (downloadWordFile_trace st currentFile) by done.
      rewrite Hall, Hsplit. cbn [fst snd]. rewrite Hrounds, last_snoc.
      split; [apply splitIntoColumnPairs_nonempty|done].
Qed.

End Counts.


Lemma downloadWordFile_count_witness :
  0 < length (saved_files (@downloadWordFile reliable one_table_split)).
Proof.
  refine (proj1 (proj2 (proj2 (@downloadWordFile_count reliable one_table_split
                                 {| name := "sheet";
                                    data := [[Str "Name"; Str "Alice"]; [Str "Age"; Num 30]];
                                    originalName := "sheet.xlsx" |} _) _) _));
    [reflexivity | reflexivity | apply logs_error_false; reflexivity].
Defined.

(** The two ways the current-file export of a table without rows may go. *)
Example empty_second_table_export :
  (∃ blob, @downloadWordFile reliable empty_second_table = [saveAs blob "south.docx"])
  ∧ @downloadWordFile docx_needs_rows empty_second_table
    = [console_error "Error creating Word document:" "Invalid array length";
       alert "Error creating Word document. Please try again."]
  ∧ @downloadAllWordFiles docx_needs_rows empty_second_table
    = [saveAs (createWordDocument
                 {| name := "north"; data := [[Str "Item"; Num 2]];
                    originalName := "north.xlsx" |} false Undefined) "north.docx";
       setTimeout 300;
       console_error "Error creating Word documents:" "Invalid array length";
       alert "Error creating Word documents. Please try again."].
Proof. split; [by eexists|]. split; reflexivity. Qed.

(** ** The name filter of the upload *)

Lemma match_end_i_spec (s pat : string) :
  match_end_i s pat = true ↔ fold_case s = fold_case pat.
Proof.
  revert pat. induction s as [|c s IH]; intros [|p pat]; simpl; try done.
  rewrite andb_true_iff, Ascii.eqb_eq, IH. split.
  - by intros [-> ->].
  - intros Heq. by injection Heq.
Qed.

Lemma canonicalize_dot (c : ascii) : canonicalize c = "."%char → c = "."%char.
Proof.
  destruct c as [[] [] [] [] [] [] [] []]; vm_compute; intros Heq;
    first [reflexivity | discriminate Heq].
Qed.

Lemma matches_excel_spec (s : string) :
  matches_excel s = true ↔ ends_with_i s ".xlsx" ∨ ends_with_i s ".xls".
Proof.
  split.
  - induction s as [|c s IH]; simpl; [done|].
    rewrite orb_true_iff, andb_true_iff, orb_true_iff, Ascii.eqb_eq, !match_end_i_spec.
    intros [[-> [Hext|Hext]]|Hrest].
    + left. exists "", (String "." s). split; [done|]. simpl. by rewrite Hext.
    + right. exists "", (String "." s). split; [done|]. simpl. by rewrite Hext.
    + destruct (IH Hrest) as [(front & back & -> & Hback)|(front & back & -> & Hback)].
      * left. by exists (String c front), back.
      * right. by exists (String c front), back.
  - assert (∀ front back,
              fold_case back = fold_case ".xlsx" ∨ fold_case back = fold_case ".xls" →
              matches_excel (front +:+ back) = true) as Hsuffix.
    { induction front as [|c front IH]; intros back Hback.
      - destruct back as [|b back]; [by destruct Hback|]. simpl in *.
        assert (b = "."%char) as ->.
        { apply canonicalize_dot. destruct Hback as [Heq|Heq]; by injection Heq. }
        rewrite orb_true_iff, andb_true_iff, orb_true_iff, !match_end_i_spec. left.
        split; [done|]. destruct Hback as [Heq|Heq]; injection Heq; auto.
      - simpl. rewrite (IH back Hback). apply orb_true_r. }
    intros [(front & back & -> & Hback)|(front & back & -> & Hback)]; apply Hsuffix; auto.
Qed.

Example matches_excel_examples :
  matches_excel "report.xlsx" = true ∧ matches_excel "OLD.XLS" = true
  ∧ matches_excel "a.xlsx.txt" = false ∧ matches_excel "xlsx" = false
  ∧ matches_excel "notes.xlsm" = false.
Proof. repeat split; reflexivity. Qed.

Example remove_extension_examples :
  remove_extension "report.xlsx" = "report"
  ∧ remove_extension "a.b.xls" = "a.b"
  ∧ remove_extension ".xlsx" = ""
  ∧ remove_extension "plain" = "plain".
Proof. repeat split; reflexivity. Qed.

(** ** The upload handler in closed form *)

Section UploadProperties.

Variable decode : File → exc Grid.

Lemma upload_body_step (fileList : list File) (i : nat)
    (newFiles : list FileData) (trace : list event) :
  upload_body decode fileList i (newFiles, trace)
  = Return (newFiles ++ uploaded decode (fileList !!! i),
            trace ++ upload_events decode (fileList !!! i)).
Proof.
  unfold upload_body, uploaded, upload_events.
  destruct (matches_excel (file_name (fileList !!! i))).
  - destruct (decode (fileList !!! i)) as [jsonData|error]; simpl.
    + reflexivity.
    + by rewrite app_nil_r, <- app_assoc.
  - by rewrite !app_nil_r.
Qed.

Lemma upload_loop (fileList : list File) :
  ∀ fuel i newFiles trace,
    for_fromM fuel i (upload_body decode fileList) (newFiles, trace)
    = Return (newFiles ++ concat ((fun k => uploaded decode (fileList !!! k)) <$> seq i fuel),
              trace ++ concat ((fun k => upload_events decode (fileList !!! k)) <$> seq i fuel)).
Proof.
  induction fuel as [|fuel IH]; intros i newFiles trace.
  - simpl. by rewrite !app_nil_r.
  - cbn [for_fromM seq]. rewrite upload_body_step. cbn [exc_bind].
    rewrite IH, !fmap_cons. cbn [concat]. by rewrite <- !app_assoc.
Qed.

(** The handler always returns: the tables of the files that pass the
    name filter and decode are appended, in order, to the working set. *)
Lemma handleFilesUpload_spec (st : AppState) (fileList : list File) :
  handleFilesUpload decode st fileList
  = Return (if (0 <? length (concat (uploaded decode <$> fileList)))%nat
            then add_files st (concat (uploaded decode <$> fileList))
            else st,
            concat (upload_events decode <$> fileList)).
Proof.
  unfold handleFilesUpload. destruct fileList as [|file0 rest]; [reflexivity|].
  change (length (file0 :: rest) =? 0)%nat with false. cbv iota.
  unfold for_loopM. rewrite Nat.sub_0_r, upload_loop. cbn [exc_bind app].
  rewrite <- (fmap_lookup_total_seq (uploaded decode)), <- (fmap_lookup_total_seq (upload_events decode)).
  by destruct (0 <? _)%nat.
Qed.

(** The same among other handlers: the tables are appended to the working
    set as it is when the loop is over, and the selection is the number of
    tables there were when the handler was called. *)
Lemma handleFilesUpload_async_spec (started st : AppState) (fileList : list File) :
  handleFilesUpload_async decode started st fileList
  = Return (if (0 <? length (concat (uploaded decode <$> fileList)))%nat
            then {| files := files st ++ concat (uploaded decode <$> fileList);
                    selectedFileIndex := length (files started);
                    isDragging := isDragging st;
                    transpose := transpose st;
                    splitColumns := splitColumns st;
                    showPreview := showPreview st |}
            else st,
            concat (upload_events decode <$> fileList)).
Proof.
  unfold handleFilesUpload_async. destruct fileList as [|file0 rest]; [reflexivity|].
  change (length (file0 :: rest) =? 0)%nat with false. cbv iota.
  unfold for_loopM. rewrite Nat.sub_0_r, upload_loop. cbn [exc_bind app].
  rewrite <- (fmap_lookup_total_seq (uploaded decode)), <- (fmap_lookup_total_seq (upload_events decode)).
  by destruct (0 <? _)%nat.
Qed.

End UploadProperties.

(** ** Uploading a batch *)

Lemma uploaded_all_decoded (decode : File → exc Grid) (l : list File) :
  Forall (fun file => ∃ table, decodes_into decode file table) l →
  Forall2 (decodes_into decode) l (concat (uploaded decode <$> l)).
Proof.
  induction 1 as [|file l (table & Hmatch & jsonData & Hdecode & ->) _ IH]; [constructor|].
  rewrite fmap_cons. cbn [concat]. unfold uploaded at 1. rewrite Hmatch, Hdecode.
  constructor; [|exact IH]. split; [done|]. by exists jsonData.
Qed.

Lemma concat_fmap_app {A B : Type} (f : A → list B) (l1 l2 : list A) :
  concat (f <$> l1 ++ l2) = concat (f <$> l1) ++ concat (f <$> l2).
Proof. by rewrite fmap_app, concat_app. Qed.

(** C9. In a batch where the decoding of exactly one file throws and every
    other file passes the name filter and decodes, the handler returns (no
    exception leaves it), and the working set afterwards is the one before
    followed by the tables of the other files, in their order: one table
    fewer than there are files in the batch, none of them from the file
    whose decoding threw. *)
Theorem handleFilesUpload_one_failure (decode : File → exc Grid) (st : AppState)
    (fileList : list File) (i : nat) (failing : File) (error : string) :
  fileList !! i = Some failing →
  matches_excel (file_name failing) = true →
  decode failing = Throw error →
  (∀ j file, j ≠ i → fileList !! j = Some file →
     ∃ table, decodes_into decode file table) →
  ∃ st' trace newFiles,
    handleFilesUpload decode st fileList = Return (st', trace)
    ∧ files st' = files st ++ newFiles
    ∧ length newFiles = length fileList - 1
    ∧ Forall2 (decodes_into decode) (delete i fileList) newFiles.
Proof.
  intros Hi Hmatch Hthrow Hothers.
  assert (Forall2 (decodes_into decode) (delete i fileList)
            (concat (uploaded decode <$> fileList))) as Hnew.
  { rewrite delete_take_drop. rewrite <- (take_drop_middle fileList i failing Hi) at 3.
    rewrite concat_fmap_app, fmap_cons. cbn [concat].
    unfold uploaded at 2. rewrite Hmatch, Hthrow. cbn [app].
    apply Forall2_app; apply uploaded_all_decoded, Forall_lookup; intros j file Hj.
    - apply lookup_take_Some in Hj as [Hj Hlt]. apply (Hothers j file); [lia|done].
    - rewrite lookup_drop in Hj. apply (Hothers (S i + j) file); [lia|done]. }
  rewrite handleFilesUpload_spec.
  eexists _, _, (concat (uploaded decode <$> fileList)). split; [reflexivity|].
  split; [|split; [|exact Hnew]].
  - destruct (Nat.ltb_spec 0 (length (concat (uploaded decode <$> fileList))))
      as [Hlt|Hge]; [reflexivity|].
    destruct (concat (uploaded decode <$> fileList)); [by rewrite app_nil_r|simpl in Hge; lia].
  - rewrite <- (Forall2_length _ _ _ Hnew). apply length_delete. by exists failing.
Qed.

Lemma handleFilesUpload_one_failure_witness :
  ∃ st' trace newFiles,
    handleFilesUpload sample_decode sample_state sample_batch = Return (st', trace)
    ∧ files st' = files sample_state ++ newFiles
    ∧ length newFiles = length sample_batch - 1
    ∧ Forall2 (decodes_into sample_decode) (delete 1 sample_batch) newFiles.
Proof.
  apply (handleFilesUpload_one_failure sample_decode sample_state sample_batch 1
           {| file_name := "broken.XLS"; file_bytes := [] |} "Unsupported file");
    [reflexivity | reflexivity | reflexivity |].
  intros [|[|[|j]]] file Hj Hfile; simpl in Hfile; [| lia | | done].
  - injection Hfile as <-. eexists. split; [reflexivity|]. eexists. split; reflexivity.
  - injection Hfile as <-. eexists. split; [reflexivity|]. eexists. split; reflexivity.
Defined.

Example handleFilesUpload_sample :
  handleFilesUpload sample_decode sample_state sample_batch
  = Return ({| files := [ {| name := "north"; data := [[Str "Name"; Str "north.xlsx"]];
                             originalName := "north.xlsx" |};
                          {| name := "south"; data := [[Str "Name"; Str "south.xls"]];
                             originalName := "south.xls" |} ];
               selectedFileIndex := 0;
               isDragging := false;
               transpose := true;
               splitColumns := false;
               showPreview := true |},
            [arrayBuffer "north.xlsx";
             arrayBuffer "broken.XLS";
             console_error "Error reading file broken.XLS:" "Unsupported file";
             arrayBuffer "south.xls"]).
Proof. reflexivity. Qed.

(** ** Files the upload skips *)

Lemma append_inj_r (a b c : string) : a +:+ c = b +:+ c → a = b.
Proof.
  revert b. induction a as [|x a IH]; intros [|y b] Heq; simpl in Heq.
  - reflexivity.
  - apply (f_equal String.length) in Heq.
    rewrite !append_length in Heq. simpl in Heq. lia.
  - apply (f_equal String.length) in Heq.
    rewrite !append_length in Heq. simpl in Heq. lia.
  - injection Heq as -> Heq. f_equal. by apply IH.
Qed.

Lemma uploaded_matches (decode : File → exc Grid) (l : list File) (table : FileData) :
  table ∈ concat (uploaded decode <$> l) → matches_excel (originalName table) = true.
Proof.
  induction l as [|file l IH]; [by intros ?%elem_of_nil|].
  rewrite fmap_cons. cbn [concat]. intros [Hin|Hin]%elem_of_app; [|by apply IH].
  unfold uploaded in Hin. destruct (matches_excel (file_name file)) eqn:Hmatch.
  - destruct (decode file) as [jsonData|error].
    + apply list_elem_of_singleton in Hin as ->. exact Hmatch.
    + by apply elem_of_nil in Hin.
  - by apply elem_of_nil in Hin.
Qed.

(** Every event of an upload is about a file that passed the name filter. *)
Lemma upload_events_matches (decode : File → exc Grid) (l : list File) (e : event) :
  e ∈ concat (upload_events decode <$> l) →
  ∃ fileName, matches_excel fileName = true
    ∧ (e = arrayBuffer fileName
       ∨ ∃ error, e = console_error ("Error reading file " +:+ fileName +:+ ":") error).
Proof.
  induction l as [|file l IH]; [by intros ?%elem_of_nil|].
  rewrite fmap_cons. cbn [concat]. intros [Hin|Hin]%elem_of_app; [|by apply IH].
  unfold upload_events in Hin. destruct (matches_excel (file_name file)) eqn:Hmatch.
  - exists (file_name file). split; [done|].
    apply elem_of_cons in Hin as [->|Hin]; [by left|].
    destruct (decode file) as [jsonData|error].
    + by apply elem_of_nil in Hin.
    + apply list_elem_of_singleton in Hin as ->. right. by exists error.
  - by apply elem_of_nil in Hin.
Qed.

(** C10. A file whose name does not end in [.xlsx] or [.xls], the case of
    letters apart, leaves no mark on an upload: the handler returns what it
    returns on the batch without the file, state and trace alike. The bytes
    of the file are not read, no error about it is logged, no table among
    the new ones comes from it, and no exception leaves the handler. *)
Theorem handleFilesUpload_skips (decode : File → exc Grid) (st : AppState)
    (before : list File) (skipped : File) (after : list File) :
  ¬ ends_with_i (file_name skipped) ".xlsx" →
  ¬ ends_with_i (file_name skipped) ".xls" →
  handleFilesUpload decode st (before ++ skipped :: after)
  = handleFilesUpload decode st (before ++ after)
  ∧ ∃ st' trace newFiles,
      handleFilesUpload decode st (before ++ skipped :: after) = Return (st', trace)
      ∧ files st' = files st ++ newFiles
      ∧ (∀ table, table ∈ newFiles → originalName table ≠ file_name skipped)
      ∧ (arrayBuffer (file_name skipped) ∉ trace)
      ∧ (∀ error,
           console_error ("Error reading file " +:+ file_name skipped +:+ ":") error
           ∉ trace).
Proof.
  intros Hxlsx Hxls.
  assert (matches_excel (file_name skipped) = false) as Hskip.
  { destruct (matches_excel (file_name skipped)) eqn:Hmatch; [|reflexivity].
    apply matches_excel_spec in Hmatch as [?|?]; done. }
  assert (concat (uploaded decode <$> before ++ skipped :: after)
          = concat (uploaded decode <$> before ++ after)) as Htables.
  { rewrite !concat_fmap_app, fmap_cons. cbn [concat].
    unfold uploaded at 2. by rewrite Hskip. }
  assert (concat (upload_events decode <$> before ++ skipped :: after)
          = concat (upload_events decode <$> before ++ after)) as Hevents.
  { rewrite !concat_fmap_app, fmap_cons. cbn [concat].
    unfold upload_events at 2. by rewrite Hskip. }
  rewrite !handleFilesUpload_spec, Htables, Hevents. split; [reflexivity|].
  eexists _, _, (concat (uploaded decode <$> before ++ after)). split; [reflexivity|].
  split; [|split; [|split]].
  - destruct (Nat.ltb_spec 0 (length (concat (uploaded decode <$> before ++ after))))
      as [Hlt|Hge]; [reflexivity|].
    destruct (concat (uploaded decode <$> before ++ after));
      [by rewrite app_nil_r|simpl in Hge; lia].
  - intros table Htable%uploaded_matches Hname. congruence.
  - intros (fileName & Hmatch & [Heq|[error Heq]])%upload_events_matches; [|done].
    injection Heq as <-. congruence.
  - intros error (fileName & Hmatch & [Heq|[error' Heq]])%upload_events_matches; [done|].
    apply (f_equal (fun e => match e with console_error msg _ => msg | _ => "" end))
      in Heq.
    cbv beta iota in Heq.
    apply (append_inj "Error reading file ") in Heq.
    apply append_inj_r in Heq. congruence.
Qed.

Lemma handleFilesUpload_skips_witness :
  handleFilesUpload sample_decode sample_state
    ([ {| file_name := "north.xlsx"; file_bytes := [Byte.x50] |} ]
     ++ {| file_name := "notes.xlsx.txt"; file_bytes := [Byte.x41] |}
     :: [ {| file_name := "south.xls"; file_bytes := [Byte.xd0] |} ])
  = handleFilesUpload sample_decode sample_state
      ([ {| file_name := "north.xlsx"; file_bytes := [Byte.x50] |} ]
       ++ [ {| file_name := "south.xls"; file_bytes := [Byte.xd0] |} ]).
Proof.
  apply (handleFilesUpload_skips sample_decode sample_state
           [ {| file_name := "north.xlsx"; file_bytes := [Byte.x50] |} ]
           {| file_name := "notes.xlsx.txt"; file_bytes := [Byte.x41] |}
           [ {| file_name := "south.xls"; file_bytes := [Byte.xd0] |} ]).
  - intros Hends.
    assert (matches_excel "notes.xlsx.txt" = true) as Hmatch
      by (apply matches_excel_spec; by left).
    vm_compute in Hmatch. discriminate Hmatch.
  - intros Hends.
    assert (matches_excel "notes.xlsx.txt" = true) as Hmatch
      by (apply matches_excel_spec; by right).
    vm_compute in Hmatch. discriminate Hmatch.
Defined.

(** ** Two exports from end to end *)

(** A grid of a label column and two value columns, split: two documents,
    named and titled after the heads of the value columns. *)
Example export_split :
  (fun a : string * Document => (a.1, text (title a.2), table_texts a.2))
  <$> artifacts (one_table [[Str "Name"; Str "Alice"; Str "Bob"];
                            [Str "Age"; Str "30"; Str "25"]] false true)
  = [("people_Alice.docx", "Packing Sheet Alice", [["Name"; "Alice"]; ["Age"; "30"]]);
     ("people_Bob.docx", "Packing Sheet Bob", [["Name"; "Bob"]; ["Age"; "25"]])].
Proof. reflexivity. Qed.

(** A ragged grid, transposed and not split: one document, the short row
    filled with the empty string. *)
Example export_transposed :
  (fun a : string * Document => (a.1, text (title a.2), table_texts a.2))
  <$> artifacts (one_table [[Str "A"; Str "B"]; [Str "1"; Str "2"]; [Str "3"]] true false)
  = [("people.docx", "Packing Sheet", [["A"; "1"; "3"]; ["B"; "2"; ""]])].
Proof. reflexivity. Qed.

(** * Further properties of the code *)

(** ** Shape of the transposed grid *)

Lemma or_empty_not_undefined (v : cell) : or_empty v ≠ Undefined.
Proof. by destruct v. Qed.

Lemma tabulate_rows n m f (row : Row) :
  row ∈ tabulate n m f → ∃ r, r < n ∧ row = f r <$> seq 0 m.
Proof.
  unfold tabulate. intros (r & -> & Hr)%list_elem_of_fmap.
  apply list_elem_of_lookup in Hr as [i [-> Hi]%lookup_seq]. by exists i.
Qed.

Lemma transposeData_as_tabulate (data : Grid) :
  data ≠ [] →
  transposeData data
  = tabulate (Math_max (length <$> data)) (length data)
      (fun c r => cell_or_empty data r c).
Proof. intros Hne. by rewrite transposeData_nonempty. Qed.

(** X1. Whatever the grid, every row of the transposed grid has as many
    cells as the grid has rows, and no cell of it is [undefined]: the result
    is rectangular even when the input is ragged or sparse. *)
Theorem transposeData_rows (data : Grid) (row : Row) :
  row ∈ transposeData data →
  length row = length data ∧ Undefined ∉ row.
Proof.
  destruct data as [|row0 data]; [by intros ?%elem_of_nil|].
  rewrite transposeData_as_tabulate by done.
  intros (c & _ & ->)%tabulate_rows. split.
  - by rewrite length_fmap, length_seq.
  - intros (r & Hundef & _)%list_elem_of_fmap.
    symmetry in Hundef. by apply or_empty_not_undefined in Hundef.
Qed.

Lemma transposeData_rows_witness :
  length [Str "B"; Str "2"; Str ""] = length [[Str "A"; Str "B"]; [Str "1"; Str "2"]; [Str "3"]]
  ∧ Undefined ∉ [Str "B"; Str "2"; Str ""].
Proof.
  apply (transposeData_rows [[Str "A"; Str "B"]; [Str "1"; Str "2"]; [Str "3"]]).
  vm_compute. apply list_elem_of_further, list_elem_of_here.
Defined.

(** X2. Transposing three times is transposing once, on every grid. *)
Theorem transposeData_thrice (data : Grid) :
  transposeData (transposeData (transposeData data)) = transposeData data.
Proof.
  destruct data as [|row0 data]; [reflexivity|].
  rewrite (transposeData_as_tabulate (row0 :: data)) by done.
  set (d := row0 :: data). set (n := length d).
  assert (0 < n) as Hn by (subst n d; simpl; lia).
  destruct (Math_max (length <$> d)) as [|m]; [reflexivity|].
  rewrite (transposeData_tabulate (S m) n) by lia.
  rewrite (transposeData_tabulate n (S m)) by done.
  apply tabulate_ext. intros c r _ _. unfold cell_or_empty.
  by rewrite !or_empty_idemp.
Qed.

(** A rectangular grid without undefined cells is its own normal form. *)
Lemma normalize_clean (g : Grid) :
  rectangular g → all_defined g → normalize g = g.
Proof.
  intros Hrect Hdef. unfold normalize.
  destruct g as [|row0 g]; [reflexivity|].
  change (length (row0 :: g) =? 0)%nat with false. cbv iota zeta.
  set (d := row0 :: g) in *.
  assert (Math_max (length <$> d) = length row0) as ->.
  { apply Nat.le_antisymm.
    - assert (Math_max (length <$> d) ∈ length <$> d) as Hin
        by (apply Math_max_elem; done).
      apply list_elem_of_fmap in Hin as (row & -> & Hrow).
      rewrite (Hrect row row0 Hrow); [done|]. apply list_elem_of_here.
    - apply Math_max_ge. subst d. rewrite fmap_cons. apply list_elem_of_here. }
  rewrite <- (list_fmap_id d) at 2. apply list_fmap_ext. intros i row Hrow.
  apply list_elem_of_lookup_2 in Hrow. simpl.
  rewrite <- (Hrect row row0 Hrow) by apply list_elem_of_here.
  etrans; [|apply (list_fmap_id row)].
  rewrite (fmap_lookup_total_seq id row). apply list_fmap_ext.
  intros j c [-> Hc]%lookup_seq. simpl. unfold id.
  apply or_empty_defined. intros Hundef. apply (Hdef row Hrow).
  rewrite <- Hundef. apply list_elem_of_lookup_total_2. done.
Qed.

(** X3. On a rectangular grid without undefined cells whose rows have at
    least one cell, transposing twice gives the grid back. *)
Theorem transposeData_involution (g : Grid) :
  rectangular g → all_defined g → (∀ row : Row, row ∈ g → row ≠ []) →
  transposeData (transposeData g) = g.
Proof.
  intros Hrect Hdef Hcells. destruct g as [|row0 g]; [reflexivity|].
  rewrite <- (normalize_clean (row0 :: g)) at 1 by done.
  rewrite transposeData_involutive; [by apply normalize_clean|].
  assert (row0 ≠ []) as Hrow0 by (apply Hcells, list_elem_of_here).
  assert (length row0 ≤ Math_max (length <$> row0 :: g)) as Hle.
  { apply Math_max_ge. rewrite fmap_cons. apply list_elem_of_here. }
  destruct row0; [done|]. simpl in *. lia.
Qed.

Lemma transposeData_involution_witness :
  transposeData (transposeData [[Str "A"; Num 1]; [Str "B"; Null]])
  = [[Str "A"; Num 1]; [Str "B"; Null]].
Proof.
  apply transposeData_involution.
  - intros r1 r2 H1 H2.
    apply elem_of_cons in H1 as [->|H1%list_elem_of_singleton];
      apply elem_of_cons in H2 as [->|H2%list_elem_of_singleton]; by subst.
  - intros row Hrow Hundef.
    apply elem_of_cons in Hrow as [->|Hrow%list_elem_of_singleton]; subst;
      repeat (apply elem_of_cons in Hundef as [Hundef|Hundef]; [discriminate|]);
      by apply elem_of_nil in Hundef.
  - intros row Hrow.
    apply elem_of_cons in Hrow as [->|Hrow%list_elem_of_singleton]; by subst.
Defined.

(** ** Shape of the column pairs *)

Lemma splitIntoColumnPairs_wide_elem (data : Grid) (pair : Grid) :
  1 < Math_max (length <$> data) →
  pair ∈ splitIntoColumnPairs data →
  ∃ col, 1 ≤ col < Math_max (length <$> data) ∧ pair = column_pair data col.
Proof.
  intros Hwide. rewrite splitIntoColumnPairs_wide by done.
  intros (col & -> & Hcol)%list_elem_of_fmap.
  apply list_elem_of_lookup in Hcol as [i [-> Hi]%lookup_seq].
  exists (1 + i). split; [lia|done].
Qed.

Lemma splitIntoColumnPairs_not_wide (data : Grid) :
  ¬ 1 < Math_max (length <$> data) → splitIntoColumnPairs data = [data].
Proof.
  intros Hnarrow. unfold splitIntoColumnPairs.
  destruct (length data =? 0)%nat; [reflexivity|]. cbv zeta.
  destruct (Nat.leb_spec (Math_max (length <$> data)) 1); [reflexivity|lia].
Qed.



Lemma column_pair_again (data : Grid) (col : nat) :
  column_pair (column_pair data col) 1 = column_pair data col.
Proof.
  unfold column_pair. rewrite <- list_fmap_compose.
  apply list_fmap_ext. intros i row _. simpl.
  change ([or_empty (row !!! 0); or_empty (row !!! col)] !!! 0) with (or_empty (row !!! 0)).
  change ([or_empty (row !!! 0); or_empty (row !!! col)] !!! 1) with (or_empty (row !!! col)).
  by rewrite !or_empty_idemp.
Qed.

Lemma Math_max_fmap_const {A : Type} (l : list A) (m : nat) :
  l ≠ [] → Math_max ((fun _ => m) <$> l) = m.
Proof.
  induction l as [|x l IH]; [done|]. intros _. rewrite fmap_cons.
  destruct l as [|y l].
  - simpl. lia.
  - unfold Math_max in *. cbn [foldr]. rewrite IH by done. lia.
Qed.

Lemma column_pair_width (data : Grid) (col : nat) :
  data ≠ [] → Math_max (length <$> column_pair data col) = 2.
Proof.
  intros Hne. unfold column_pair. rewrite <- list_fmap_compose.
  rewrite (list_fmap_ext _ (fun _ => 2) data) by done.
  by apply Math_max_fmap_const.
Qed.

(** X5. Splitting a grid that came out of a split changes nothing: every
    element of the result of [splitIntoColumnPairs] is split into itself
    alone. *)
Theorem splitIntoColumnPairs_again (data pair : Grid) :
  pair ∈ splitIntoColumnPairs data →
  splitIntoColumnPairs pair = [pair].
Proof.
  destruct (decide (1 < Math_max (length <$> data))) as [Hwide|Hnarrow].
  - intros (col & _ & ->)%splitIntoColumnPairs_wide_elem; [|done].
    assert (data ≠ []) as Hne by (intros ->; simpl in Hwide; lia).
    rewrite splitIntoColumnPairs_wide by (rewrite column_pair_width by done; lia).
    rewrite column_pair_width by done. simpl.
    by rewrite column_pair_again.
  - rewrite splitIntoColumnPairs_not_wide by done.
    intros ->%list_elem_of_singleton. by apply splitIntoColumnPairs_not_wide.
Qed.

Lemma splitIntoColumnPairs_again_witness :
  splitIntoColumnPairs [[Str "Name"; Str "Bob"]; [Str "Age"; Str ""]]
  = [[[Str "Name"; Str "Bob"]; [Str "Age"; Str ""]]].
Proof.
  apply (splitIntoColumnPairs_again
           [[Str "Name"; Str "Alice"; Str "Bob"]; [Str "Age"; Num 30]]).
  vm_compute. apply list_elem_of_further, list_elem_of_here.
Defined.

(** ** The display name of an uploaded file *)

Lemma append_nil_l (b : string) : "" +:+ b = b.
Proof. reflexivity. Qed.

Lemma append_nil_r (a : string) : a +:+ "" = a.
Proof. induction a as [|c a IH]; [done|]. by rewrite append_cons, IH. Qed.

Lemma class_plus_end_spec (s : string) :
  class_plus_end s = true
  ↔ s ≠ "" ∧ Forall (fun c => c ≠ "/"%char ∧ c ≠ "."%char) (list_ascii_of_string s).
Proof.
  assert (∀ c, not_slash_dot c = true ↔ c ≠ "/"%char ∧ c ≠ "."%char) as Hclass.
  { intros c. unfold not_slash_dot.
    rewrite andb_true_iff, !negb_true_iff, <- !not_true_iff_false, !Ascii.eqb_eq. done. }
  induction s as [|c s IH]; cbn [class_plus_end list_ascii_of_string].
  - split; [done|]. by intros [? _].
  - destruct s as [|c' s].
    + rewrite Hclass. cbn [list_ascii_of_string]. split.
      * intros Hc. split; [done|]. constructor; [done|constructor].
      * intros [_ Hall]. by apply Forall_cons in Hall as [? _].
    + rewrite andb_true_iff, Hclass, IH. split.
      * intros [Hc [_ Hall]]. split; [done|]. by constructor.
      * intros [_ Hall]. apply Forall_cons in Hall as [Hc Hall]. done.
Qed.

(** No extension starts before the last dot of a name. *)
Lemma class_plus_end_dot (front ext : string) :
  class_plus_end (front +:+ String "." ext) = false.
Proof.
  induction front as [|c front IH].
  - rewrite append_nil_l. cbn [class_plus_end]. by destruct ext.
  - rewrite append_cons. cbn [class_plus_end].
    destruct (front +:+ String "." ext) eqn:Hrest.
    + by destruct front.
    + rewrite IH. apply andb_false_r.
Qed.

Lemma remove_extension_front (front ext : string) :
  class_plus_end ext = true →
  remove_extension (front +:+ String "." ext) = front.
Proof.
  intros Hext. induction front as [|c front IH].
  - rewrite append_nil_l. cbn [remove_extension]. by rewrite Hext.
  - rewrite append_cons. cbn [remove_extension].
    by rewrite class_plus_end_dot, andb_false_r, IH.
Qed.

(** X7. [remove_extension] only cuts at the end: the name is what is kept
    followed by nothing, or by one dot and an extension of at least one
    character that holds neither a dot nor a slash. *)
Theorem remove_extension_cut (s : string) :
  ∃ rest, s = remove_extension s +:+ rest
    ∧ (rest = ""
       ∨ ∃ ext, rest = String "." ext ∧ ext ≠ ""
           ∧ Forall (fun c => c ≠ "/"%char ∧ c ≠ "."%char) (list_ascii_of_string ext)).
Proof.
  induction s as [|c s (rest & Hs & Hrest)].
  - exists "". split; [reflexivity|by left].
  - cbn [remove_extension].
    destruct (Ascii.eqb c "." && class_plus_end s) eqn:Hcut.
    + apply andb_true_iff in Hcut as [->%Ascii.eqb_eq Hext].
      exists (String "." s). split; [reflexivity|]. right. exists s.
      split; [reflexivity|]. by apply class_plus_end_spec.
    + exists rest. split; [|exact Hrest]. rewrite append_cons. by f_equal.
Qed.

Lemma canonicalize_class (c : ascii) :
  not_slash_dot c = true
  ∨ canonicalize c = "/"%char ∨ canonicalize c = "."%char.
Proof.
  destruct c as [[] [] [] [] [] [] [] []]; vm_compute; auto.
Qed.

Lemma excel_extension_class (ext : string) :
  fold_case ext = fold_case "xlsx" ∨ fold_case ext = fold_case "xls" →
  class_plus_end ext = true.
Proof.
  assert (∀ c x, canonicalize c = x → x ≠ "/"%char → x ≠ "."%char →
                 not_slash_dot c = true) as Hletter.
  { intros c x Hc Hslash Hdot.
    destruct (canonicalize_class c) as [?|[?|?]]; [done|congruence|congruence]. }
  intros [Hext|Hext].
  - destruct ext as [|c1 [|c2 [|c3 [|c4 [|c5 ext]]]]]; try discriminate Hext.
    injection Hext as H1 H2 H3 H4. cbn [class_plus_end].
    rewrite (Hletter c1 _ H1), (Hletter c2 _ H2), (Hletter c3 _ H3), (Hletter c4 _ H4);
      done.
  - destruct ext as [|c1 [|c2 [|c3 [|c4 ext]]]]; try discriminate Hext.
    injection Hext as H1 H2 H3. cbn [class_plus_end].
    rewrite (Hletter c1 _ H1), (Hletter c2 _ H2), (Hletter c3 _ H3); done.
Qed.

(** The name of a file that passes the filter, without its extension. *)
Lemma remove_extension_excel (s : string) :
  matches_excel s = true →
  ∃ ext, s = remove_extension s +:+ ext
    ∧ (fold_case ext = ".XLSX" ∨ fold_case ext = ".XLS").
Proof.
  intros Hmatch.
  assert (∃ front back, s = front +:+ back
            ∧ (fold_case back = fold_case ".xlsx" ∨ fold_case back = fold_case ".xls"))
    as (front & back & -> & Hback).
  { apply matches_excel_spec in Hmatch as [(f & b & -> & Hb)|(f & b & -> & Hb)];
      exists f, b; auto. }
  destruct back as [|b0 ext]; [by destruct Hback|].
  assert (b0 = "."%char) as ->.
  { apply canonicalize_dot. destruct Hback as [Heq|Heq]; by injection Heq. }
  assert (fold_case ext = fold_case "xlsx" ∨ fold_case ext = fold_case "xls") as Hext.
  { destruct Hback as [Heq|Heq]; injection Heq; auto. }
  exists (String "." ext). split.
  - by rewrite remove_extension_front by (by apply excel_extension_class).
  - destruct Hback as [Heq|Heq]; [left|right]; exact Heq.
Qed.

(** X6. After an upload every table of the working set was there before or
    is named after its file: the original name is the display name
    followed by [.xlsx] or [.xls], in any case of letters. *)
Theorem handleFilesUpload_names (decode : File → exc Grid) (st st' : AppState)
    (fileList : list File) (trace : list event) (table : FileData) :
  handleFilesUpload decode st fileList = Return (st', trace) →
  table ∈ files st' →
  table ∈ files st
  ∨ ∃ ext, originalName table = name table +:+ ext
      ∧ (fold_case ext = ".XLSX" ∨ fold_case ext = ".XLS").
Proof.
  rewrite handleFilesUpload_spec. intros Hreturn Htable.
  injection Hreturn as <- _.
  destruct (0 <? length (concat (uploaded decode <$> fileList)))%nat; [|by left].
  simpl in Htable. apply elem_of_app in Htable as [Hold|Hnew]; [by left|right].
  pose proof (uploaded_matches decode fileList table Hnew) as Hmatch.
  assert (name table = remove_extension (originalName table)) as ->.
  { clear Hmatch. induction fileList as [|file fileList IH]; [by apply elem_of_nil in Hnew|].
    rewrite fmap_cons in Hnew. cbn [concat] in Hnew.
    apply elem_of_app in Hnew as [Hnew|Hnew]; [|by apply IH].
    unfold uploaded in Hnew. destruct (matches_excel (file_name file)); [|by apply elem_of_nil in Hnew].
    destruct (decode file); [|by apply elem_of_nil in Hnew].
    by apply list_elem_of_singleton in Hnew as ->. }
  by apply remove_extension_excel.
Qed.

Lemma handleFilesUpload_names_witness :
  {| name := "south"; data := [[Str "Name"; Str "south.xls"]]; originalName := "south.xls" |}
  ∈ files sample_state
  ∨ ∃ ext, "south.xls" = "south" +:+ ext
      ∧ (fold_case ext = ".XLSX" ∨ fold_case ext = ".XLS").
Proof.
  eapply (handleFilesUpload_names sample_decode sample_state _ sample_batch _
            {| name := "south"; data := [[Str "Name"; Str "south.xls"]];
               originalName := "south.xls" |}).
  - reflexivity.
  - simpl. apply list_elem_of_further, list_elem_of_here.
Defined.

(** ** What an upload keeps *)

(** X8. An upload, whatever other handlers ran while it was reading the
    files, never removes or reorders the tables of the working set and never
    touches the options: the new tables are appended to the working set as
    it is when the reading is over. When there is none the state is as
    before; otherwise the selection becomes the number of tables there were
    when the upload was started, which is the place of the first new table
    when the working set has as many tables at the end of the reading as at
    its start. No exception leaves the handler, and with no handler in
    between it is [handleFilesUpload]. *)
Theorem handleFilesUpload_extends (decode : File → exc Grid) (started st : AppState)
    (fileList : list File) :
  (∃ st' trace newFiles,
     handleFilesUpload_async decode started st fileList = Return (st', trace)
     ∧ files st' = files st ++ newFiles
     ∧ transpose st' = transpose st
     ∧ splitColumns st' = splitColumns st
     ∧ showPreview st' = showPreview st
     ∧ isDragging st' = isDragging st
     ∧ (newFiles = [] → st' = st)
     ∧ (newFiles ≠ [] →
          selectedFileIndex st' = length (files started)
          ∧ (length (files started) = length (files st) →
               files st' !! selectedFileIndex st' = head newFiles)))
  ∧ handleFilesUpload_async decode st st fileList = handleFilesUpload decode st fileList.
Proof.
  split; [|reflexivity].
  rewrite handleFilesUpload_async_spec.
  eexists _, _, (concat (uploaded decode <$> fileList)). split; [reflexivity|].
  destruct (concat (uploaded decode <$> fileList)) as [|table newFiles] eqn:Hnew.
  - simpl. rewrite app_nil_r. repeat split; done.
  - simpl. repeat split; try done.
    intros ->. rewrite lookup_app_r by done. by rewrite Nat.sub_diag.
Qed.

(** Both tables are removed while a third file is read: the selection the
    upload leaves is out of range, and the current-file export answers that
    no file is selected. *)
Example handleFilesUpload_stale_selection :
  ∃ st' trace,
    handleFilesUpload_async sample_decode same_name_tables
      (removeFile (removeFile same_name_tables 0) 0)
      [ {| file_name := "north.xlsx"; file_bytes := [Byte.x50; Byte.x4b] |} ]
    = Return (st', trace)
    ∧ length (files st') = 1
    ∧ selectedFileIndex st' = 2
    ∧ @downloadWordFile reliable st' = [alert "No file selected!"].
Proof. do 2 eexists. split; [reflexivity|]. by repeat split. Qed.

(** X9. Two uploads in a row leave the working set that one upload of the
    two batches together leaves, and log the same events in the same
    order. *)
Theorem handleFilesUpload_app (decode : File → exc Grid) (st : AppState)
    (batch1 batch2 : list File) :
  ∃ st1 trace1 st2 trace2 st12 trace12,
    handleFilesUpload decode st batch1 = Return (st1, trace1)
    ∧ handleFilesUpload decode st1 batch2 = Return (st2, trace2)
    ∧ handleFilesUpload decode st (batch1 ++ batch2) = Return (st12, trace12)
    ∧ files st2 = files st12
    ∧ trace12 = trace1 ++ trace2.
Proof.
  rewrite !handleFilesUpload_spec. do 6 eexists.
  split; [reflexivity|]. split; [rewrite handleFilesUpload_spec; reflexivity|].
  split; [reflexivity|]. rewrite !concat_fmap_app. split; [|reflexivity].
  assert (∀ (s : AppState) (l : list FileData),
            files (if (0 <? length l)%nat then add_files s l else s) = files s ++ l)
    as Hfiles.
  { intros s [|x l]; simpl; [by rewrite app_nil_r|done]. }
  rewrite !Hfiles. by rewrite app_assoc.
Qed.

Example handleFilesUpload_empty (st : AppState) :
  handleFilesUpload sample_decode st [] = Return (st, []).
Proof. reflexivity. Qed.

(** ** Removing a table *)

Lemma filter_indexed_skip {A : Type} (l : list A) (index : nat) :
  ∀ offset,
    filter_indexed (fun _ i => negb (i =? index)%nat) offset l
    = if (index <? offset)%nat then l else delete (index - offset) l.
Proof.
  induction l as [|x l IH]; intros offset.
  - simpl. by destruct (index <? offset)%nat, (index - offset).
  - cbn [filter_indexed]. rewrite IH.
    destruct (Nat.eqb_spec offset index) as [->|Hne]; simpl.
    + destruct (Nat.ltb_spec index (S index)); [|lia].
      destruct (Nat.ltb_spec index index); [lia|]. by rewrite Nat.sub_diag.
    + destruct (Nat.ltb_spec index offset).
      * destruct (Nat.ltb_spec index (S offset)); [done|lia].
      * destruct (Nat.ltb_spec index (S offset)); [lia|].
        replace (index - offset) with (S (index - S offset)) by lia. done.
Qed.

Lemma removeFile_files (st : AppState) (index : nat) :
  files (removeFile st index) = delete index (files st).
Proof.
  unfold removeFile. simpl. rewrite filter_indexed_skip. simpl.
  by rewrite Nat.sub_0_r.
Qed.

Lemma removeFile_length (st : AppState) (index : nat) :
  index < length (files st) →
  length (files (removeFile st index)) = length (files st) - 1.
Proof.
  intros Hindex. rewrite removeFile_files. apply length_delete.
  by apply lookup_lt_is_Some_2.
Qed.

Lemma removeFile_selected (st : AppState) (index : nat) :
  index < length (files st) →
  selectedFileIndex (removeFile st index)
  = if (length (files st) - 1 <=? selectedFileIndex st)%nat
    then length (files st) - 2
    else selectedFileIndex st.
Proof.
  intros Hindex. pose proof (removeFile_length st index Hindex) as Hlen.
  unfold removeFile in *. simpl in *. rewrite Hlen.
  destruct (length (files st) - 1 <=? selectedFileIndex st)%nat; lia.
Qed.

(** X10. The cross of a tab removes the table of that tab and no other: the
    tables before it keep their places and those after it move up by one.
    A selection that was in range stays in range (it is [0] when no table
    is left), and it keeps its value unless it pointed at the last place. *)
Theorem removeFile_spec (st : AppState) (index : nat) :
  index < length (files st) →
  length (files (removeFile st index)) = length (files st) - 1
  ∧ (∀ i, i < index → files (removeFile st index) !! i = files st !! i)
  ∧ (∀ i, index ≤ i → files (removeFile st index) !! i = files st !! (S i))
  ∧ (selectedFileIndex st < length (files st) →
       selectedFileIndex (removeFile st index) ≤ length (files (removeFile st index)) - 1)
  ∧ (selectedFileIndex st < length (files st) - 1 →
       selectedFileIndex (removeFile st index) = selectedFileIndex st).
Proof.
  intros Hindex. rewrite (removeFile_selected st index Hindex).
  rewrite (removeFile_length st index Hindex). split; [reflexivity|].
  split; [|split; [|split]].
  - intros i Hi. rewrite removeFile_files. by apply list_lookup_delete_lt.
  - intros i Hi. rewrite removeFile_files. by apply list_lookup_delete_ge.
  - intros Hsel.
    destruct (Nat.leb_spec (length (files st) - 1) (selectedFileIndex st)); lia.
  - intros Hsel.
    destruct (Nat.leb_spec (length (files st) - 1) (selectedFileIndex st)); lia.
Qed.

(** Three tables, the second one selected. *)
Lemma removeFile_spec_witness :
  selectedFileIndex (removeFile (selectFile three_tables 1) 0)
  ≤ length (files (removeFile (selectFile three_tables 1) 0)) - 1.
Proof.
  apply (removeFile_spec (selectFile three_tables 1) 0); simpl; lia.
Defined.

(** X11. The selection is an index and does not follow the selected table.
    Removing a tab behind the selected one keeps the selected table;
    removing the selected tab or one before it hands the selection to the
    table that came next, unless the selected table was the last one: then
    it stays selected when a tab before it was removed, and the selection
    passes to the table before it when it was removed itself. *)
Theorem removeFile_selection (st : AppState) (index : nat) :
  index < length (files st) →
  selectedFileIndex st < length (files st) →
  let st' := removeFile st index in
  (selectedFileIndex st < index →
     files st' !! selectedFileIndex st' = files st !! selectedFileIndex st)
  ∧ (index ≤ selectedFileIndex st → selectedFileIndex st < length (files st) - 1 →
     files st' !! selectedFileIndex st' = files st !! S (selectedFileIndex st))
  ∧ (index < selectedFileIndex st → selectedFileIndex st = length (files st) - 1 →
     files st' !! selectedFileIndex st' = files st !! selectedFileIndex st)
  ∧ (index = selectedFileIndex st → selectedFileIndex st = length (files st) - 1 →
     0 < selectedFileIndex st →
     files st' !! selectedFileIndex st' = files st !! (selectedFileIndex st - 1)).
Proof.
  intros Hindex Hsel. cbv zeta.
  rewrite (removeFile_selected st index Hindex), removeFile_files.
  destruct (Nat.leb_spec (length (files st) - 1) (selectedFileIndex st)) as [Hlast|Hfront].
  - split; [|split; [|split]].
    + intros Hlt. lia.
    + intros _ Hlt. lia.
    + intros Hlt _. rewrite list_lookup_delete_ge by lia. f_equal. lia.
    + intros Heq _ Hpos. rewrite list_lookup_delete_lt by lia. f_equal. lia.
  - split; [|split; [|split]].
    + intros Hlt. by apply list_lookup_delete_lt.
    + intros Hle _. by apply list_lookup_delete_ge.
    + intros _ Heq. lia.
    + intros _ Heq. lia.
Qed.

Lemma removeFile_selection_witness :
  let st' := removeFile (selectFile three_tables 1) 0 in
  files st' !! selectedFileIndex st'
  = files (selectFile three_tables 1) !! S (selectedFileIndex (selectFile three_tables 1)).
Proof.
  refine (proj1 (proj2 (removeFile_selection (selectFile three_tables 1) 0 _ _)) _ _);
    simpl; lia.
Defined.

(** ** The states the user can reach *)

Lemma uploaded_named (decode : File → exc Grid) (l : list File) (table : FileData) :
  table ∈ concat (uploaded decode <$> l) →
  name table = remove_extension (originalName table).
Proof.
  induction l as [|file l IH]; [by intros ?%elem_of_nil|].
  rewrite fmap_cons. cbn [concat]. intros [Hin|Hin]%elem_of_app; [|by apply IH].
  unfold uploaded in Hin.
  destruct (matches_excel (file_name file)); [|by apply elem_of_nil in Hin].
  destruct (decode file); [|by apply elem_of_nil in Hin].
  by apply list_elem_of_singleton in Hin as ->.
Qed.

Lemma upload_well_formed (decode : File → exc Grid) (st : AppState) (fileList : list File) :
  well_formed st →
  well_formed (state_after (handleFilesUpload decode st fileList) st).
Proof.
  intros [Hsel Htables]. rewrite handleFilesUpload_spec. simpl.
  destruct (concat (uploaded decode <$> fileList)) as [|table0 newFiles] eqn:Hnew;
    [done|].
  split; simpl.
  - rewrite length_app. simpl. lia.
  - intros table [Hold|Hin]%elem_of_app; [by apply Htables|].
    rewrite <- Hnew in Hin. split.
    + by apply (uploaded_matches decode fileList).
    + by apply (uploaded_named decode fileList).
Qed.

Lemma set_isDragging_well_formed (b : bool) (st : AppState) :
  well_formed st → well_formed (set_isDragging b st).
Proof. by intros [Hsel Htables]. Qed.

Lemma reachable_well_formed (decode : File → exc Grid) (st : AppState) :
  reachable decode st → well_formed st.
Proof.
  induction 1 as [|st a _ IH Henabled].
  - split; [simpl; lia|]. by intros table ?%elem_of_nil.
  - destruct a; simpl in *.
    + by apply upload_well_formed.
    + by apply upload_well_formed.
    + by apply set_isDragging_well_formed.
    + by apply set_isDragging_well_formed.
    + exact IH.
    + unfold handleDrop. destruct (0 <? length droppedFiles)%nat.
      * pose proof (upload_well_formed decode (set_isDragging false st) droppedFiles
                      (set_isDragging_well_formed false st IH)) as Hwf.
        by destruct (handleFilesUpload decode (set_isDragging false st) droppedFiles)
          as [[st' trace]|error].
      * by apply set_isDragging_well_formed.
    + destruct IH as [_ Htables]. split; [simpl; lia|exact Htables].
    + destruct IH as [Hsel Htables]. split.
      * rewrite removeFile_selected, removeFile_length by done.
        destruct (Nat.leb_spec (length (files st) - 1) (selectedFileIndex st)); lia.
      * intros table Htable. rewrite removeFile_files in Htable.
        by apply Htables, (list_elem_of_delete_inv _ index).
    + exact IH.
    + exact IH.
    + exact IH.
Qed.

(** A state the examples reach: the sample batch was browsed for. *)
Lemma sample_reachable :
  reachable sample_decode (step sample_decode initial_state (Browse sample_batch)).
Proof. apply reachable_step; [apply reachable_initial|exact I]. Qed.

(** X17. However the user got there, the selection points at a table as soon
    as the working set holds one: uploads, removals and clicks on tabs keep
    the selected index in range. *)
Theorem reachable_selection (decode : File → exc Grid) (st : AppState) :
  reachable decode st →
  files st ≠ [] →
  ∃ currentFile, files st !! selectedFileIndex st = Some currentFile.
Proof.
  intros [Hsel _]%reachable_well_formed Hne.
  apply lookup_lt_is_Some_2. destruct (files st); [done|]. simpl in *. lia.
Qed.

Lemma reachable_selection_witness :
  ∃ currentFile,
    files (step sample_decode initial_state (Browse sample_batch))
    !! selectedFileIndex (step sample_decode initial_state (Browse sample_batch))
    = Some currentFile.
Proof.
  apply (reachable_selection sample_decode); [|discriminate].
  apply reachable_step; [apply reachable_initial|exact I].
Defined.

Lemma rounds_events_no_alert (rs : list ((string * Document) * bool)) (msg : string) :
  alert msg ∉ rounds_events rs.
Proof.
  induction rs as [|[a pause] rs IH]; [by intros ?%elem_of_nil|].
  unfold rounds_events in *. rewrite fmap_cons. cbn [concat].
  intros [Hin|Hin]%elem_of_app; [|done].
  apply elem_of_cons in Hin as [Hin|Hin]; [done|].
  destruct pause; [by apply list_elem_of_singleton in Hin|by apply elem_of_nil in Hin].
Qed.

(** X18. In no state the user reaches by handlers that each run to
    completion does the current-file export answer [No file selected!]: with
    an empty working set it asks for a file, and otherwise it saves at least
    one document or reports that the document could not be created; it
    saves at least one when it logs no error. *)
Theorem reachable_downloadWordFile `{Libraries} (decode : File → exc Grid) (st : AppState) :
  reachable decode st →
  (alert "No file selected!" ∉ downloadWordFile st)
  ∧ (files st = [] → downloadWordFile st = [alert "Please upload an Excel file first!"])
  ∧ (files st ≠ [] →
       saved_files (downloadWordFile st) ≠ []
       ∨ alert "Error creating Word document. Please try again." ∈ downloadWordFile st)
  ∧ (files st ≠ [] → no_error (downloadWordFile st) →
       saved_files (downloadWordFile st) ≠ []).
Proof.
  intros [Hsel _]%reachable_well_formed.
  destruct (files st) as [|file0 rest] eqn:Hfiles.
  - unfold downloadWordFile. rewrite Hfiles. simpl. split; [|done].
    intros Hin%list_elem_of_singleton. discriminate Hin.
  - rewrite <- Hfiles in *.
    assert (∃ currentFile, files st !! selectedFileIndex st = Some currentFile)
      as [currentFile Hcurrent].
    { apply lookup_lt_is_Some_2. rewrite Hfiles in *. simpl in *. lia. }
    assert ((render (word_rounds st currentFile)).2 = None →
            saved_files (downloadWordFile st) ≠ []) as Hsaved.
    { intros Hall%render_all.
      rewrite (saved_files_downloadWordFile st currentFile), Hall by done.
      intros Hnil%fmap_nil_inv. by apply (word_rounds_nonempty st currentFile). }
    split; [|split; [by rewrite Hfiles|split]].
    + rewrite (downloadWordFile_trace st currentFile) by done.
      intros [Hin|Hin]%elem_of_app; [by apply rounds_events_no_alert in Hin|].
      destruct (render _).2.
      * apply elem_of_cons in Hin as [Hin|Hin%list_elem_of_singleton]; done.
      * destruct (splitColumns st);
          [by apply list_elem_of_singleton in Hin|by apply elem_of_nil in Hin].
    + intros _. destruct (render (word_rounds st currentFile)).2 as [error|] eqn:Hthrown.
      * right. rewrite (downloadWordFile_trace st currentFile), Hthrown by done.
        apply elem_of_app. right. apply list_elem_of_further, list_elem_of_here.
      * left. by apply Hsaved.
    + intros _ Hno. apply Hsaved.
      by rewrite (downloadWordFile_no_error st currentFile).
Qed.

Lemma reachable_downloadWordFile_witness :
  alert "No file selected!"
  ∉ @downloadWordFile reliable (step sample_decode initial_state (Browse sample_batch)).
Proof.
  apply (@reachable_downloadWordFile reliable sample_decode).
  apply reachable_step; [apply reachable_initial|exact I].
Defined.

(** X19. Every table of a state the user can reach is named after an Excel
    file: its original name is its display name followed by [.xlsx] or
    [.xls], in any case of letters. *)
Theorem reachable_tables (decode : File → exc Grid) (st : AppState) (table : FileData) :
  reachable decode st →
  table ∈ files st →
  ∃ ext, originalName table = name table +:+ ext
    ∧ (fold_case ext = ".XLSX" ∨ fold_case ext = ".XLS").
Proof.
  intros [_ Htables]%reachable_well_formed Htable.
  destruct (Htables table Htable) as [Hmatch ->].
  by apply remove_extension_excel.
Qed.

Lemma reachable_tables_witness :
  ∃ ext, "north.xlsx" = "north" +:+ ext
    ∧ (fold_case ext = ".XLSX" ∨ fold_case ext = ".XLS").
Proof.
  apply (reachable_tables sample_decode
           (step sample_decode initial_state (Browse sample_batch))
           {| name := "north"; data := [[Str "Name"; Str "north.xlsx"]];
              originalName := "north.xlsx" |}).
  - apply reachable_step; [apply reachable_initial|exact I].
  - apply list_elem_of_here.
Defined.

(** ** The preview and the exported documents *)

Lemma row_texts (row : Row) :
  omap (fmap text)
    (row_map (fun cell => {| text := cell_text cell; bold := false; size := 20 |}) row)
  = omap id (row_map cell_text row).
Proof.
  unfold row_map. induction row as [|c row IH]; [reflexivity|].
  destruct c; simpl; first [exact IH | f_equal; exact IH].
Qed.

Lemma table_texts_createWordDocument (fileData : FileData) (transpose : bool) (suffix : cell) :
  table_texts (createWordDocument fileData transpose suffix)
  = (fun row : Row => omap id (row_map cell_text row))
    <$> (if transpose then transposeData (data fileData) else data fileData).
Proof.
  unfold table_texts, createWordDocument. cbn [table_rows].
  rewrite <- list_fmap_compose.
  apply list_fmap_ext. intros i row _. apply row_texts.
Qed.

Lemma preview_familyName_split (pair : Grid) :
  preview_familyName true pair
  = if truthy (opt_index (pair !! 0) 1) then opt_index (pair !! 0) 1 else Str "".
Proof.
  unfold preview_familyName. simpl.
  destruct (pair !! 0) as [row|] eqn:Hrow; [|reflexivity]. simpl.
  by rewrite (list_lookup_total_correct pair 0 row Hrow).
Qed.

(** The page of the preview and the document of pair [j]. *)
Lemma preview_page_split (file : FileData) (columnPairs : list Grid) (j : nat) (pair : Grid) :
  columnPairs !! j = Some pair →
  page_rows (preview_page true pair) = table_texts (split_artifact file columnPairs j).2
  ∧ (truthy (opt_index (pair !! 0) 1) = true →
       text (title (split_artifact file columnPairs j).2) = page_title (preview_page true pair))
  ∧ (truthy (opt_index (pair !! 0) 1) = false →
       page_title (preview_page true pair) = "Packing Sheet"
       ∧ text (title (split_artifact file columnPairs j).2)
         = "Packing Sheet column" +:+ nat_to_String (j + 2)).
Proof.
  intros Hpair. unfold split_artifact. cbn [snd].
  rewrite table_texts_createWordDocument, createWordDocument_title_text.
  unfold preview_page. cbn [page_rows page_title].
  rewrite preview_familyName_split. unfold familyName, js_or.
  rewrite (list_lookup_total_correct columnPairs j pair Hpair).
  split; [reflexivity|]. split; intros Htruthy; rewrite Htruthy.
  - by rewrite Htruthy.
  - split; reflexivity.
Qed.

(** X20. With a table selected and the preview on, the preview shows a page
    for each document the current-file export saves, in the same order and
    with the same table texts; it shows exactly as many pages as documents
    are saved when the export logs no error, and more when a document fails.
    The titles agree as well, except for a pair whose head cell does not
    count as true: the page is titled [Packing Sheet] alone while the
    document carries the placeholder [column{j+2}]. *)
Theorem preview_matches_export `{Libraries} (st : AppState) (currentFile : FileData) :
  files st !! selectedFileIndex st = Some currentFile →
  showPreview st = true →
  ∃ pages,
    preview st = Some ("Document Preview - " +:+ originalName currentFile, pages)
    ∧ length (saved_files (downloadWordFile st)) ≤ length pages
    ∧ (no_error (downloadWordFile st) →
         length pages = length (saved_files (downloadWordFile st)))
    ∧ ∀ j page a,
        pages !! j = Some page →
        saved_files (downloadWordFile st) !! j = Some a →
        page_rows page = table_texts a.2
        ∧ (text (title a.2) = page_title page
           ∨ (splitColumns st = true
              ∧ page_title page = "Packing Sheet"
              ∧ text (title a.2) = "Packing Sheet column" +:+ nat_to_String (j + 2))).
Proof.
  intros Hsel Hshow.
  rewrite (saved_files_downloadWordFile st currentFile Hsel).
  destruct (render_prefix (word_rounds st currentFile)) as [rest Hrest].
  apply (f_equal (fmap fst)) in Hrest. rewrite fmap_app in Hrest.
  assert (no_error (downloadWordFile st) →
          (render (word_rounds st currentFile)).1.*1 = (word_rounds st currentFile).*1)
    as Hall.
  { intros Hno. by rewrite (downloadWordFile_no_error st currentFile Hsel Hno). }
  assert (∀ j a, (render (word_rounds st currentFile)).1.*1 !! j = Some a →
                 (word_rounds st currentFile).*1 !! j = Some a) as Hlookup.
  { intros j a Ha. rewrite Hrest. by apply lookup_app_l_Some. }
  assert (length (render (word_rounds st currentFile)).1.*1
          ≤ length (word_rounds st currentFile).*1) as Hle.
  { rewrite Hrest, length_app. lia. }
  clear Hrest.
  rewrite word_rounds_artifacts in Hall, Hlookup, Hle.
  unfold preview. rewrite Hsel, Hshow.
  assert ((0 <? length (files st))%nat = true) as ->.
  { apply Nat.ltb_lt. pose proof (lookup_lt_Some _ _ _ Hsel). lia. }
  fold (dataToExport st currentFile). fold (columnPairs_of st currentFile).
  eexists. split; [reflexivity|].
  destruct (splitColumns st) eqn:Hsplit.
  - rewrite !length_fmap, length_seq in Hle. rewrite !length_fmap.
    split; [exact Hle|]. split.
    { intros Hno. apply (f_equal length) in Hall; [|done].
      by rewrite !length_fmap, length_seq in Hall. }
    intros j page a Hpage Ha%Hlookup.
    rewrite list_lookup_fmap in Hpage. rewrite list_lookup_fmap in Ha.
    destruct (columnPairs_of st currentFile !! j) as [pair|] eqn:Hpair; [|done].
    injection Hpage as <-.
    assert (j < length (columnPairs_of st currentFile)) as Hj
      by (by apply lookup_lt_Some in Hpair).
    rewrite lookup_seq_lt in Ha by done. injection Ha as <-.
    destruct (preview_page_split currentFile _ j pair Hpair) as (Hrows & Hsame & Hplace).
    split; [exact Hrows|].
    destruct (truthy (opt_index (pair !! 0) 1)) eqn:Htruthy.
    + left. by apply Hsame.
    + right. split; [reflexivity|]. by apply Hplace.
  - split; [exact Hle|]. split.
    { intros Hno. by rewrite (Hall Hno). }
    intros [|j] page a Hpage Ha%Hlookup; [|done].
    injection Hpage as <-. injection Ha as <-.
    unfold whole_artifact. cbn [snd].
    rewrite table_texts_createWordDocument, createWordDocument_title_text.
    split; [reflexivity|]. by left.
Qed.

Lemma preview_matches_export_witness :
  ∃ pages,
    preview headless_column = Some ("Document Preview - people.xlsx", pages)
    ∧ length (saved_files (@downloadWordFile reliable headless_column)) ≤ length pages
    ∧ (no_error (@downloadWordFile reliable headless_column) →
         length pages = length (saved_files (@downloadWordFile reliable headless_column)))
    ∧ ∀ j page a,
        pages !! j = Some page →
        saved_files (@downloadWordFile reliable headless_column) !! j = Some a →
        page_rows page = table_texts a.2
        ∧ (text (title a.2) = page_title page
           ∨ (splitColumns headless_column = true
              ∧ page_title page = "Packing Sheet"
              ∧ text (title a.2) = "Packing Sheet column" +:+ nat_to_String (j + 2))).
Proof.
  apply (@preview_matches_export reliable headless_column
           {| name := "people";
              data := [[Str "Label"; Str ""]; [Str "Age"; Num 30]];
              originalName := "people.xlsx" |});
    reflexivity.
Defined.

Example preview_headless_column :
  preview headless_column
  = Some ("Document Preview - people.xlsx",
          [ {| page_title := "Packing Sheet";
               page_rows := [["Label"; ""]; ["Age"; "30"]] |} ])
  ∧ (fun a : string * Document => (a.1, text (title a.2)))
    <$> saved_files (@downloadWordFile reliable headless_column)
    = [("people_column2.docx", "Packing Sheet column2")].
Proof. split; reflexivity. Qed.

(** ** One table, two exports *)

Lemma word_rounds_as_file_artifacts (st : AppState) (i : nat) :
  (word_rounds (selectFile st i) (files st !!! i)).*1.*2 = (file_artifacts st i).*2
  ∧ (splitColumns st = true ∨ name (files st !!! i) ≠ "" →
       (word_rounds (selectFile st i) (files st !!! i)).*1 = file_artifacts st i).
Proof.
  rewrite word_rounds_artifacts. unfold file_artifacts.
  change (splitColumns (selectFile st i)) with (splitColumns st).
  change (transpose (selectFile st i)) with (transpose st).
  change (columnPairs_of (selectFile st i) (files st !!! i))
    with (columnPairs_of st (files st !!! i)).
  destruct (splitColumns st).
  - split; [reflexivity|]. by intros _.
  - split; [reflexivity|]. intros [Hsplit|Hname]; [discriminate Hsplit|].
    unfold whole_artifact, js_or. simpl.
    destruct (name (files st !!! i)); [done|reflexivity].
Qed.

(** X21. When neither logs an error, the all-files export saves, table
    after table, the documents the current-file export saves when that table
    is selected. The file names are the same too when splitting is on or no
    table has an empty name; a table without a name exported without
    splitting is saved as [converted.docx] by the current-file export and
    as [converted_{i+1}.docx] by the all-files export. *)
Theorem downloadWordFile_as_all_files `{Libraries} (st : AppState) :
  no_error (downloadAllWordFiles st) →
  (∀ i, i < length (files st) → no_error (downloadWordFile (selectFile st i))) →
  (saved_files (downloadAllWordFiles st)).*2
  = concat ((fun i => (saved_files (downloadWordFile (selectFile st i))).*2)
            <$> seq 0 (length (files st)))
  ∧ (splitColumns st = true ∨ (∀ file, file ∈ files st → name file ≠ "") →
       saved_files (downloadAllWordFiles st)
       = concat ((fun i => saved_files (downloadWordFile (selectFile st i)))
                 <$> seq 0 (length (files st))))
  ∧ (splitColumns st = false →
       ∀ i file, files st !! i = Some file → name file = "" →
         (saved_files (downloadWordFile (selectFile st i))).*1 = ["converted.docx"]
         ∧ (saved_files (downloadAllWordFiles st)).*1 !! i
           = Some ("converted_" +:+ nat_to_String (i + 1) +:+ ".docx")).
Proof.
  intros Hno Hnos. pose proof (downloadAllWordFiles_no_error st Hno) as Hall.
  assert (saved_files (downloadAllWordFiles st) = artifacts st) as Hsaved.
  { rewrite saved_files_downloadAllWordFiles, Hall. apply all_rounds_artifacts. }
  assert (∀ i, i < length (files st) →
            saved_files (downloadWordFile (selectFile st i))
            = (word_rounds (selectFile st i) (files st !!! i)).*1) as Hone.
  { intros i Hi.
    assert (files (selectFile st i) !! selectedFileIndex (selectFile st i)
            = Some (files st !!! i)) as Hsel.
    { by apply list_lookup_lookup_total_lt. }
    rewrite (saved_files_downloadWordFile _ _ Hsel).
    by rewrite (downloadWordFile_no_error _ _ Hsel (Hnos i Hi)). }
  rewrite Hsaved. split; [|split].
  - unfold artifacts. rewrite concat_fmap_fmap. f_equal.
    apply list_fmap_ext. intros k i [-> Hi]%lookup_seq. simpl.
    rewrite Hone by done. symmetry. apply word_rounds_as_file_artifacts.
  - intros Hnames. unfold artifacts. f_equal.
    apply list_fmap_ext. intros k i [-> Hi]%lookup_seq. simpl.
    rewrite Hone by done. symmetry. apply word_rounds_as_file_artifacts.
    destruct Hnames as [Hsplit|Hnames]; [by left|right].
    apply Hnames, list_elem_of_lookup_total_2. lia.
  - intros Hsplit i file Hfile Hname.
    assert (i < length (files st)) as Hi by (by eapply lookup_lt_Some).
    rewrite Hone by done. rewrite word_rounds_artifacts.
    change (splitColumns (selectFile st i)) with (splitColumns st).
    rewrite (list_lookup_total_correct _ _ _ Hfile).
    unfold artifacts, file_artifacts. rewrite Hsplit.
    rewrite (concat_singletons
               (fun i => whole_artifact (transpose st) (files st !!! i)
                           ("converted_" +:+ nat_to_String (i + 1)))).
    rewrite !list_lookup_fmap, lookup_seq_lt by done. simpl.
    rewrite (list_lookup_total_correct _ _ _ Hfile).
    unfold whole_artifact, js_or. simpl. by rewrite Hname.
Qed.

Lemma downloadWordFile_as_all_files_witness :
  (saved_files (@downloadAllWordFiles reliable three_tables)).*2
  = concat ((fun i => (saved_files
                         (@downloadWordFile reliable (selectFile three_tables i))).*2)
            <$> seq 0 (length (files three_tables))).
Proof.
  apply (@downloadWordFile_as_all_files reliable three_tables).
  - apply logs_error_false. reflexivity.
  - intros i Hi. apply logs_error_false.
    destruct i as [|[|[|i]]]; [reflexivity..|simpl in Hi; lia].
Defined.

(** ** Transposing, then splitting *)



Example splitIntoColumnPairs_transposed_example :
  splitIntoColumnPairs (transposeData [[Str "Name"; Str "Age"]; [Str "Alice"; Num 30]; [Str "Bob"]])
  = [[[Str "Name"; Str "Alice"]; [Str "Age"; Num 30]];
     [[Str "Name"; Str "Bob"]; [Str "Age"; Str ""]]].
Proof. reflexivity. Qed.
